(** * check_speedtest.py: a shallow embedding and its verified properties

    The plugin is one linear pipeline: load and validate the command-line
    arguments, run [speedtest-cli], extract the two speeds from its output
    with a regular expression, compare them with the thresholds, and leave
    the process through [icinga_exit].  Every function below is the
    translation of the Python function of the same name; Python values are
    kept as Python has them ([None], [str], [float]), [sys.exit] and raised
    exceptions are the two abnormal results of the [outcome] monad. *)

From Stdlib Require Import ZArith List String Ascii Bool Lia.
From Stdlib Require Import Floats DecimalString.
Import ListNotations.
Local Open Scope string_scope.
Local Open Scope Z_scope.

(** ** Python values and control flow *)

Module Py.

(** The values the plugin's attributes can hold. *)
Inductive pyval : Type :=
| PNone
| PStr (s : string)
| PFloat (f : float).

(** Exceptions are identified by their class and carry [str(e)]. *)
Inductive exn_class : Type :=
| TypeError | ValueError | AttributeError | UnboundLocalError | OtherError.

Record exn : Type := Exn { exn_cls : exn_class; exn_msg : string }.

Inductive stream : Type := stdout | stderr.

(** What [icinga_exit] leaves behind: the line printed, where, and the
    status handed to [sys.exit]. *)
Record exit_record : Type :=
  ExitRecord { status : Z; channel : stream; line : string }.

(** A computation returns, leaves through [sys.exit] ([SystemExit] is a
    [BaseException]: [except Exception] does not catch it), or raises. *)
Inductive outcome (A : Type) : Type :=
| Return (a : A)
| Exit (r : exit_record)
| Raise (e : exn).
Arguments Return {A} a.
Arguments Exit {A} r.
Arguments Raise {A} e.

Definition bind {A B} (c : outcome A) (k : A -> outcome B) : outcome B :=
  match c with
  | Return a => k a
  | Exit r => Exit r
  | Raise e => Raise e
  end.

(** [bool(v)]: [None], the empty string and a zero float are false;
    a NaN is true. *)
Definition truthy (v : pyval) : bool :=
  match v with
  | PNone => false
  | PStr s => negb (String.eqb s "")
  | PFloat f => negb (PrimFloat.eqb f 0%float)
  end.

Definition type_name (v : pyval) : string :=
  match v with
  | PNone => "NoneType"
  | PStr _ => "str"
  | PFloat _ => "float"
  end.

Definition not_supported (op : string) (a b : pyval) : exn :=
  Exn TypeError ("'" ++ op ++ "' not supported between instances of '"
                 ++ type_name a ++ "' and '" ++ type_name b ++ "'").

(** [a < b] and [a <= b]: defined on two floats and on two strings, a
    [TypeError] on everything else. *)
Definition lt (a b : pyval) : outcome bool :=
  match a, b with
  | PFloat x, PFloat y => Return (PrimFloat.ltb x y)
  | PStr x, PStr y => Return (String.ltb x y)
  | _, _ => Raise (not_supported "<" a b)
  end.

Definition le (a b : pyval) : outcome bool :=
  match a, b with
  | PFloat x, PFloat y => Return (PrimFloat.leb x y)
  | PStr x, PStr y => Return (String.leb x y)
  | _, _ => Raise (not_supported "<=" a b)
  end.

(** The parts of a run that are not the plugin's own code: the
    interpreter's [float(s)] ([None] stands for its [ValueError]) and
    [str(x)] on floats, and what [subprocess.run] followed by
    [stdout.decode('utf-8')] gives on a list of strings: the standard
    output of the child as text, or the exception raised on the way (no
    such program, output that is not UTF-8). *)
Class Runtime : Type := {
  float_of_str : string -> option float;
  str_of_float : float -> string;
  run_stdout : list string -> exn + string
}.

(** [str(v)], which is also what ['{}'.format(v)] inserts. *)
Definition str `{Runtime} (v : pyval) : string :=
  match v with
  | PNone => "None"
  | PStr s => s
  | PFloat f => str_of_float f
  end.

(** [float(s)] on a string.  The message quotes the string as it is,
    without the escapes of [repr]. *)
Definition to_float `{Runtime} (s : string) : outcome pyval :=
  match float_of_str s with
  | Some f => Return (PFloat f)
  | None => Raise (Exn ValueError
                     ("could not convert string to float: '" ++ s ++ "'"))
  end.

End Py.
Import Py.

Declare Scope py_scope.
Delimit Scope py_scope with py.
Notation "x <- c ;; k" := (bind c (fun x => k))
  (at level 61, c at next level, right associativity) : py_scope.
Notation "c ;;; k" := (bind c (fun _ => k))
  (at level 61, right associativity) : py_scope.
Local Open Scope py_scope.

(** ** The interpreter's [float(s)] and [str(x)]

    A model of CPython's two conversions on ASCII text, for running the
    plugin on concrete inputs.  [float_of_str] strips white space, takes
    the underscores out that stand between digits, reads a sign, then
    [inf], [infinity], [nan] or a decimal literal, and rounds it to the
    nearest double, ties to even.  [str_of_float] is [repr]: the shortest
    digit string that reads back as the same double, laid out
    positionally or with an exponent. *)

Module CPython.

(** ASCII texts only: a byte above 127 is an ordinary character that
    is neither a digit nor white space. *)

Definition code (c : ascii) : Z := Z.of_nat (nat_of_ascii c).

Definition is_space (c : ascii) : bool :=
  let n := code c in
  ((9 <=? n) && (n <=? 13)) || ((28 <=? n) && (n <=? 32)).

Definition is_digit (c : ascii) : bool :=
  let n := code c in (48 <=? n) && (n <=? 57).

Definition lower (c : ascii) : ascii :=
  let n := code c in
  if (65 <=? n) && (n <=? 90) then ascii_of_nat (Z.to_nat (n + 32)) else c.

Fixpoint drop_spaces (l : list ascii) : list ascii :=
  match l with
  | c :: l' => if is_space c then drop_spaces l' else l
  | [] => []
  end.

Definition strip (l : list ascii) : list ascii :=
  rev (drop_spaces (rev (drop_spaces l))).

(** Underscores may only stand between two digits; they are removed. *)
Fixpoint no_underscores (prev : ascii) (l : list ascii)
  : option (list ascii) :=
  match l with
  | [] => if Ascii.eqb prev "_" then None else Some []
  | c :: l' =>
      if Ascii.eqb c "_" then
        if is_digit prev then no_underscores c l' else None
      else if Ascii.eqb prev "_" && negb (is_digit c) then None
      else option_map (cons c) (no_underscores c l')
  end.

(** A run of digits: its value appended to [acc], its length, the rest. *)
Fixpoint digits (acc : Z) (n : Z) (l : list ascii) : Z * Z * list ascii :=
  match l with
  | c :: l' =>
      if is_digit c then digits (10 * acc + (code c - 48)) (n + 1) l'
      else (acc, n, l)
  | [] => (acc, n, [])
  end.

Definition sign (l : list ascii) : bool * list ascii :=
  match l with
  | "-"%char :: l' => (true, l')
  | "+"%char :: l' => (false, l')
  | _ => (false, l)
  end.

(** The exponent part, which must reach the end of the text. *)
Definition exponent (l : list ascii) : option Z :=
  match l with
  | [] => Some 0
  | c :: l' =>
      if Ascii.eqb (lower c) "e" then
        let (neg, l2) := sign l' in
        match digits 0 0 l2 with
        | (e, n, []) => if 0 <? n then Some (if neg then - e else e)
                        else None
        | _ => None
        end
      else None
  end.

(** mantissa and power of ten of a decimal literal without sign *)
Definition decimal (l : list ascii) : option (Z * Z) :=
  let '(i, ni, l1) := digits 0 0 l in
  let '(m, nf, l2) :=
    match l1 with
    | "."%char :: l1' => digits i 0 l1'
    | _ => (i, 0, l1)
    end in
  if 0 <? ni + nf then
    option_map (fun e => (m, e - nf)) (exponent l2)
  else None.

(** [m * 10^e] for [0 < m], rounded to the nearest double, ties to
    even: an exact integer when [0 <= e], otherwise a quotient carried
    to more than 60 bits with a sticky bit below them. *)
Definition round_decimal (m e : Z) : spec_float :=
  let nd := Z.log2 m / 3 + 1 in
  if 400 <? e then S754_infinity false
  else if nd + e <? -400 then S754_zero false
  else if 0 <=? e then binary_normalize prec emax (m * 10 ^ e) 0 false
  else
    let d := 10 ^ (- e) in
    let s := Z.max 0 (Z.log2 d + 64 - Z.log2 m) in
    let (q, r) := Z.div_eucl (m * 2 ^ s) d in
    let sticky := if r =? 0 then 0 else 1 in
    binary_normalize prec emax (2 * q + sticky) (- (s + 1)) false.

Definition of_decimal (neg : bool) (m e : Z) : float :=
  let f := if m =? 0 then zero else SF2Prim (round_decimal m e) in
  if neg then (- f)%float else f.

Definition float_of_str (s : string) : option float :=
  match no_underscores " "%char (strip (list_ascii_of_string s)) with
  | None => None
  | Some l =>
      let (neg, body) := sign l in
      let word := string_of_list_ascii (map lower body) in
      if String.eqb word "inf" || String.eqb word "infinity"
      then Some (if neg then neg_infinity else infinity)
      else if String.eqb word "nan" then Some nan
      else option_map (fun '(m, e) => of_decimal neg m e) (decimal body)
  end.


(** The decimal string of a natural number. *)
Definition dec (n : Z) : string :=
  NilZero.string_of_uint (N.to_uint (Z.to_N n)).

Fixpoint zeros (n : nat) : string :=
  match n with
  | O => ""
  | S n' => "0" ++ zeros n'
  end.

(** [num / den < 10^e] *)
Definition below_pow10 (num den e : Z) : bool :=
  if 0 <=? e then num <? den * 10 ^ e else num * 10 ^ (- e) <? den.

(** The least [e] from [e0] on with [num / den < 10^e]. *)
Fixpoint decpt_from (fuel : nat) (num den e0 : Z) : Z :=
  match fuel with
  | O => e0
  | S fuel' => if below_pow10 num den e0 then e0
               else decpt_from fuel' num den (e0 + 1)
  end.

Definition decpt_of (num den : Z) : Z :=
  decpt_from 8 num den ((Z.log2 num - Z.log2 den - 1) * 30103 / 100000 - 1).

Fixpoint strip_zeros (fuel : nat) (m e : Z) : Z * Z :=
  match fuel with
  | O => (m, e)
  | S fuel' => if (m mod 10 =? 0) && negb (m =? 0)
               then strip_zeros fuel' (m / 10) (e + 1)
               else (m, e)
  end.

(** The shortest decimal [m * 10^e] that [round_decimal] takes back to
    [x = num / den], the nearest to [x] among those of its length. *)
Fixpoint shortest (fuel : nat) (n : Z) (x : spec_float) (num den pt : Z)
  : Z * Z :=
  let e := pt - n in
  let (lo, r) := if 0 <=? e then Z.div_eucl num (den * 10 ^ e)
                 else Z.div_eucl (num * 10 ^ (- e)) den in
  let back m := match x, round_decimal m e with
                | S754_finite _ a b, S754_finite _ c d =>
                    Pos.eqb a c && Z.eqb b d
                | _, _ => false
                end in
  let scale := if 0 <=? e then den * 10 ^ e else den in
  match fuel with
  | O => (lo, e)
  | S fuel' =>
      if r =? 0 then (lo, e)
      else
        let ok_lo := (0 <? lo) && back lo in
        let ok_hi := back (lo + 1) in
        if ok_lo && ok_hi then
          if 2 * r <? scale then (lo, e)
          else if scale <? 2 * r then (lo + 1, e)
          else if Z.even lo then (lo, e) else (lo + 1, e)
        else if ok_lo then (lo, e)
        else if ok_hi then (lo + 1, e)
        else shortest fuel' (n + 1) x num den pt
  end.

(** [repr] of the digits [m] with the decimal point after [pt] of
    them: positional for [-4 < pt <= 16], with an exponent otherwise. *)
Definition layout (m pt : Z) : string :=
  let ds := dec m in
  let n := Z.of_nat (String.length ds) in
  if (pt <=? -4) || (16 <? pt) then
    let x := pt - 1 in
    let mant := if n =? 1 then ds
                else substring 0 1 ds ++ "."
                     ++ substring 1 (String.length ds - 1) ds in
    let ex := dec (Z.abs x) in
    mant ++ "e" ++ (if x <? 0 then "-" else "+")
         ++ (if Z.abs x <? 10 then "0" else "") ++ ex
  else if pt <=? 0 then "0." ++ zeros (Z.to_nat (- pt)) ++ ds
  else if n <=? pt then ds ++ zeros (Z.to_nat (pt - n)) ++ ".0"
  else substring 0 (Z.to_nat pt) ds ++ "."
       ++ substring (Z.to_nat pt) (Z.to_nat (n - pt)) ds.

Definition str_of_float (f : float) : string :=
  match Prim2SF f with
  | S754_nan => "nan"
  | S754_infinity s => if s then "-inf" else "inf"
  | S754_zero s => if s then "-0.0" else "0.0"
  | S754_finite s m e =>
      let num := if 0 <=? e then Zpos m * 2 ^ e else Zpos m in
      let den := if 0 <=? e then 1 else 2 ^ (- e) in
      let pt := decpt_of num den in
      let (d, k) := shortest 17 1 (Prim2SF f) num den pt in
      let (d, k) := strip_zeros 20 d k in
      (if s then "-" else "")
        ++ layout d (Z.of_nat (String.length (dec d)) + k)
  end.

End CPython.

(** The run-time made of these two conversions and of a given behaviour
    of the child process. *)
Definition cpython (child : list string -> exn + string) : Runtime :=
  {| float_of_str := CPython.float_of_str;
     str_of_float := CPython.str_of_float;
     run_stdout := child |}.

(** ** Module constants *)

Definition ICINGA_OK : Z := 0.
Definition ICINGA_WARNING : Z := 1.
Definition ICINGA_CRITICAL : Z := 2.
Definition ICINGA_UNKNOWN : Z := 3.

Definition ICINGA_LABELS : list (Z * string) :=
  [(0, "OK"); (1, "WARNING"); (2, "CRITICAL"); (3, "UNKNOWN")].

(** [ICINGA_LABELS.get(level)] *)
Fixpoint dict_get (d : list (Z * string)) (k : Z) : option string :=
  match d with
  | [] => None
  | (k', v) :: d' => if Z.eqb k k' then Some v else dict_get d' k
  end.

Definition SPEEDTEST_CMD : string := "speedtest-cli".

(** ** Leaving the process *)

Definition icinga_exit {A} (level : Z) (details : option string)
           (perfdata : list string) : outcome A :=
  let stream := if Z.eqb level ICINGA_OK then stdout else stderr in
  let msg := match dict_get ICINGA_LABELS level with
             | Some l => l
             | None => "None"
             end in
  let msg := match details with
             | Some d => if String.eqb d "" then msg else msg ++ " - " ++ d
             | None => msg
             end in
  let msg := if negb (Nat.eqb (List.length perfdata) 0)
             then msg ++ " |" ++ String.concat " " perfdata
             else msg in
  Exit (ExitRecord level stream msg).

Definition exit_with_error {A} (message : string) : outcome A :=
  let message := "ERROR: " ++ message in
  icinga_exit ICINGA_UNKNOWN (Some message) [].

(** ** Regular-expression search

    [re.search("^<prefix>(.+)<suffix>$", output, re.MULTILINE)]: with
    [re.MULTILINE] the anchors match at the start of the text and after
    every line feed, and at the end of the text and before every line
    feed; [.] matches every character but the line feed.  A match is
    therefore a whole line (a maximal run without line feed) that starts
    with the prefix, ends with the suffix and has at least one character
    between them; [re.search] returns the leftmost one, and group 1 is
    what lies between.  [None] is [re.search]'s [None]. *)

Definition LF : ascii := "010"%char.

Fixpoint split_lines (s : string) : list string :=
  match s with
  | EmptyString => [EmptyString]
  | String a s' =>
      if Ascii.eqb a LF then EmptyString :: split_lines s'
      else match split_lines s' with
           | l :: ls => String a l :: ls
           | [] => [String a EmptyString]
           end
  end.

Definition match_line (prefix suffix l : string) : option string :=
  let p := String.length prefix in
  let k := String.length suffix in
  let n := String.length l in
  if String.prefix prefix l
     && Nat.ltb (p + k) n
     && String.eqb (substring (n - k) k l) suffix
  then Some (substring p (n - k - p) l)
  else None.

Fixpoint first_match (prefix suffix : string) (ls : list string)
  : option string :=
  match ls with
  | [] => None
  | l :: ls' =>
      match match_line prefix suffix l with
      | Some g => Some g
      | None => first_match prefix suffix ls'
      end
  end.

Definition re_search_group (prefix suffix output : string) : option string :=
  first_match prefix suffix (split_lines output).

(** [matches.group(1)]: an [AttributeError] when [re.search] gave [None]. *)
Definition group1 (matches : option string) : outcome string :=
  match matches with
  | Some g => Return g
  | None => Raise (Exn AttributeError
                     "'NoneType' object has no attribute 'group'")
  end.

(** [try: body / except: handler], the bare [except] taking everything,
    [SystemExit] included. *)
Definition try_except {A} (body handler : outcome A) : outcome A :=
  match body with
  | Return a => Return a
  | Exit _ | Raise _ => handler
  end.

(** [try: body / except Exception as e: handler(e)] *)
Definition try_except_Exception {A} (body : outcome A)
           (handler : exn -> outcome A) : outcome A :=
  match body with
  | Raise e => handler e
  | r => r
  end.

(** ** The argument namespace and the plugin object *)

(** What [parser.parse_args()] returns: the flags, [--server] already
    converted by [type=int], the six levels still as the strings given. *)
Record Namespace : Type := {
  ns_debug : bool;
  ns_debug2 : bool;
  ns_no_download : bool;
  ns_no_upload : bool;
  ns_always_ok : bool;
  ns_server : option Z;
  ns_download_warning : option string;
  ns_download_critical : option string;
  ns_upload_warning : option string;
  ns_upload_critical : option string;
  ns_download_max : option string;
  ns_upload_max : option string
}.

(** The attributes of a [CheckCommand] instance.  [speedtest_cmd] is
    set by [__init__] after [_manage_arguments] and the two speeds by
    [_parse_output]; until then they hold a value that nothing reads. *)
Record CheckCommand : Type := {
  debug : bool;
  debug2 : bool;
  no_download : bool;
  no_upload : bool;
  always_ok : bool;
  server : option Z;
  download_warning : pyval;
  download_critical : pyval;
  upload_warning : pyval;
  upload_critical : pyval;
  download_max : pyval;
  upload_max : pyval;
  speedtest_cmd : string;
  download_speed : pyval;
  upload_speed : pyval
}.

Definition set_speedtest_cmd (self : CheckCommand) (c : string) :=
  {| debug := debug self; debug2 := debug2 self;
     no_download := no_download self; no_upload := no_upload self;
     always_ok := always_ok self; server := server self;
     download_warning := download_warning self;
     download_critical := download_critical self;
     upload_warning := upload_warning self;
     upload_critical := upload_critical self;
     download_max := download_max self; upload_max := upload_max self;
     speedtest_cmd := c;
     download_speed := download_speed self;
     upload_speed := upload_speed self |}.

Definition set_speeds (self : CheckCommand) (d u : pyval) :=
  {| debug := debug self; debug2 := debug2 self;
     no_download := no_download self; no_upload := no_upload self;
     always_ok := always_ok self; server := server self;
     download_warning := download_warning self;
     download_critical := download_critical self;
     upload_warning := upload_warning self;
     upload_critical := upload_critical self;
     download_max := download_max self; upload_max := upload_max self;
     speedtest_cmd := speedtest_cmd self;
     download_speed := d;
     upload_speed := u |}.

(** An element of the list handed to [subprocess.run]. *)
Inductive cmd_item : Type :=
| CStr (s : string)
| CInt (n : Z).

Section Plugin.
Context {RT : Runtime}.

(** [self.x = getattr(args, 'x', None)] followed by
    [if self.x: self.x = float(self.x)]. *)
Definition load_level (a : option string) : outcome pyval :=
  let v := match a with Some s => PStr s | None => PNone end in
  if truthy v then
    match v with
    | PStr s => Py.to_float s
    | _ => Return v
    end
  else Return v.

(** [if c: exit_with_error(msg)] *)
Definition exit_if (c : bool) (msg : string) : outcome unit :=
  if c then exit_with_error msg else Return tt.

(** [if a and b and (a <= b)], evaluated left to right. *)
Definition both_and_le (a b : pyval) : outcome bool :=
  if truthy a then
    if truthy b then Py.le a b else Return false
  else Return false.

(** The two checks of one [max] level against its direction's critical
    and warning levels. *)
Definition check_max (mx critical warning : pyval)
           (msg_critical msg_warning : string) : outcome unit :=
  if truthy mx then
    c <- Py.lt mx critical ;;
    exit_if c msg_critical ;;;
    w <- Py.lt mx warning ;;
    exit_if w msg_warning
  else Return tt.

Definition _manage_arguments (args : Namespace) : outcome CheckCommand :=
  dw <- load_level (ns_download_warning args) ;;
  dc <- load_level (ns_download_critical args) ;;
  uw <- load_level (ns_upload_warning args) ;;
  uc <- load_level (ns_upload_critical args) ;;
  dm <- load_level (ns_download_max args) ;;
  um <- load_level (ns_upload_max args) ;;
  exit_if (ns_no_download args && (truthy dw || truthy dc || truthy dm))
    ("You must not specify download warning, critical or max"
     ++ " levels if --no-download specified!") ;;;
  exit_if (ns_no_upload args && (truthy uw || truthy uc || truthy um))
    ("You must not specify upload warning, critical or max levels"
     ++ " if --no-upload specified!") ;;;
  d <- both_and_le dw dc ;;
  exit_if d ("Download warning level must be bigger than download"
             ++ " critical level!") ;;;
  u <- both_and_le uw uc ;;
  exit_if u ("Upload warning level must be bigger than upload"
             ++ " critical level!") ;;;
  check_max dm dc dw
    ("Download max level cannot be lower than download"
     ++ " critical level!")
    ("Download max level cannot be lower than download"
     ++ " warning level!") ;;;
  check_max um uc uw
    ("Upload max level cannot be lower than upload critical"
     ++ " level!")
    ("Upload max level cannot be lower than upload warning"
     ++ " level!") ;;;
  Return {| debug := ns_debug args; debug2 := ns_debug2 args;
            no_download := ns_no_download args;
            no_upload := ns_no_upload args;
            always_ok := ns_always_ok args;
            server := ns_server args;
            download_warning := dw; download_critical := dc;
            upload_warning := uw; upload_critical := uc;
            download_max := dm; upload_max := um;
            speedtest_cmd := "";
            download_speed := PNone; upload_speed := PNone |}.

(** [CheckCommand.__init__], given the parsed arguments. *)
Definition __init__ (args : Namespace) : outcome CheckCommand :=
  self <- _manage_arguments args ;;
  Return (set_speedtest_cmd self SPEEDTEST_CMD).

(** [command.append(x)] *)
Definition append (command : list cmd_item) (x : cmd_item) :=
  (command ++ [x])%list.

(** The list built by [_compose_speedtest_command]. *)
Definition speedtest_command (self : CheckCommand) : list cmd_item :=
  let command := [CStr (speedtest_cmd self)] in
  let command := if no_download self
                 then append command (CStr "--no-download")
                 else command in
  let command := if no_upload self
                 then append command (CStr "--no-upload")
                 else command in
  match server self with
  | Some n => if negb (Z.eqb n 0)
              then append (append command (CStr "--server")) (CInt n)
              else command
  | None => command
  end.

(** [subprocess.run] converts every element of the list to a file-system
    string before it starts the child, and raises [TypeError] on one
    that is not a string. *)
Fixpoint as_strings (command : list cmd_item) : option (list string) :=
  match command with
  | [] => Some []
  | CStr s :: c' => option_map (cons s) (as_strings c')
  | CInt _ :: _ => None
  end.

Definition subprocess_run (command : list cmd_item) : outcome string :=
  match as_strings command with
  | Some argv => match run_stdout argv with
                 | inr output => Return output
                 | inl e => Raise e
                 end
  | None => Raise (Exn TypeError
                     "expected str, bytes or os.PathLike object, not int")
  end.

Definition _compose_speedtest_command (self : CheckCommand)
  : outcome string :=
  subprocess_run (speedtest_command self).

(** One of the two [try] blocks of [_parse_output]. *)
Definition extract_speed (prefix output : string) : outcome pyval :=
  try_except
    (download_speed <- group1 (re_search_group prefix " Mbit/s" output) ;;
     Py.to_float download_speed)
    (Return PNone).

Definition _parse_output (self : CheckCommand) (output : string)
  : outcome CheckCommand :=
  download_speed <- extract_speed "Download: " output ;;
  upload_speed <- extract_speed "Upload: " output ;;
  Return (set_speeds self download_speed upload_speed).

Definition _compose_level_string (level : Z) (print_ok : bool)
           (prepend left_delimiter right_delimiter : string)
  : outcome string :=
  if negb print_ok && Z.eqb level 0 then Return ""
  else
    level_string <-
      (if Z.eqb level 0 then Return "OK"
       else if Z.eqb level 1 then Return "WARNING"
       else if Z.eqb level 2 then Return "CRITICAL"
       else if Z.eqb level 3 then Return "UNKNOWN"
       else Raise (Exn UnboundLocalError
                     "local variable 'level_string' referenced before assignment")) ;;
    Return (prepend ++ left_delimiter ++ level_string ++ right_delimiter).

Definition _compose_output_message (download_speed upload_speed : pyval)
           (download_result_level upload_result_level : Z)
  : outcome string :=
  download_speed_msg <-
    (if truthy download_speed then
       result_string <-
         _compose_level_string download_result_level false " " "[" "]" ;;
       Return ("Download speed: " ++ Py.str download_speed
               ++ " Mbit/sec" ++ result_string)
     else Return "No download speed") ;;
  upload_speed_msg <-
    (if truthy download_speed then
       result_string <-
         _compose_level_string upload_result_level false " " "[" "]" ;;
       Return ("Upload speed: " ++ Py.str upload_speed
               ++ " Mbit/sec" ++ result_string)
     else Return "No upload speed") ;;
  Return (download_speed_msg ++ ", " ++ upload_speed_msg).

Definition null_value : string := "NaN".
Definition min_value : float := 0%float.

(** [str(x) if x else null_value] *)
Definition str_or_null (x : pyval) : string :=
  if truthy x then Py.str x else null_value.

Definition _compose_perfdata
           (download_speed download_warning download_critical
            max_download_speed
            upload_speed upload_warning upload_critical
            max_upload_speed : pyval) : list string :=
  let perfdata := [] in
  let label := "download_speed" in
  let value := null_value in
  let value := if truthy download_speed
               then Py.str download_speed ++ "Mbit/sec" else value in
  let perfdata_elements :=
    [ value;
      str_or_null download_warning;
      str_or_null download_critical;
      if truthy max_upload_speed then str_of_float min_value
      else null_value;
      str_or_null max_download_speed ] in
  let perfdata_string :=
    "'" ++ label ++ "'=" ++ String.concat ";" perfdata_elements in
  let perfdata := (perfdata ++ [perfdata_string])%list in
  let label := "upload_speed" in
  let value := null_value in
  let value := if truthy upload_speed
               then Py.str upload_speed ++ "Mbit/sec" else value in
  let perfdata_elements :=
    [ value;
      str_or_null upload_warning;
      str_or_null upload_critical;
      if truthy max_upload_speed then str_of_float min_value
      else null_value;
      str_or_null max_upload_speed ] in
  let perfdata_string :=
    "'" ++ label ++ "'=" ++ String.concat ";" perfdata_elements in
  let perfdata := (perfdata ++ [perfdata_string])%list in
  perfdata.

(** The three local variables of [_parse_results]. *)
Record Levels : Type := {
  exit_level : Z;
  download_level : Z;
  upload_level : Z
}.

(** [threshold and speed < threshold] *)
Definition below (threshold speed : pyval) : outcome bool :=
  if truthy threshold then Py.lt speed threshold else Return false.

(** The block of [_parse_results] from "Set default levels" to the
    last threshold check. *)
Definition check_levels (self : CheckCommand) : outcome Levels :=
  let lv := {| exit_level := 0; download_level := 0;
               upload_level := 0 |} in
  if negb (always_ok self) then
    b <- below (download_warning self) (download_speed self) ;;
    let lv := if b : bool
              then {| exit_level := 1; download_level := 1;
                      upload_level := upload_level lv |}
              else lv in
    b <- below (upload_warning self) (upload_speed self) ;;
    let lv := if b : bool
              then {| exit_level := 1;
                      download_level := download_level lv;
                      upload_level := 1 |}
              else lv in
    b <- below (download_critical self) (download_speed self) ;;
    let lv := if b : bool
              then {| exit_level := 2; download_level := 2;
                      upload_level := upload_level lv |}
              else lv in
    b <- below (upload_critical self) (upload_speed self) ;;
    let lv := if b : bool
              then {| exit_level := 2;
                      download_level := download_level lv;
                      upload_level := 2 |}
              else lv in
    Return lv
  else Return lv.

Definition _parse_results (self : CheckCommand) : outcome unit :=
  exit_if (negb (truthy (download_speed self))
           && negb (truthy (upload_speed self)))
          "No download and upload speed recognised" ;;;
  lv <- check_levels self ;;
  output_message <-
    _compose_output_message (download_speed self) (upload_speed self)
                            (download_level lv) (upload_level lv) ;;
  let perfdata :=
    _compose_perfdata (download_speed self) (download_warning self)
                      (download_critical self) (download_max self)
                      (upload_speed self) (upload_warning self)
                      (upload_critical self) (upload_max self) in
  icinga_exit (exit_level lv) (Some output_message) perfdata.

Definition handle (self : CheckCommand) : outcome unit :=
  output <- _compose_speedtest_command self ;;
  self <- _parse_output self output ;;
  _parse_results self.

(** The [if __name__ == "__main__"] block.  A [Raise] that leaves it is
    an uncaught exception: the interpreter prints the traceback and the
    process ends with status 1. *)
Definition main (args : Namespace) : outcome unit :=
  main <- __init__ args ;;
  if debug2 main then handle main
  else try_except_Exception (handle main)
                            (fun e => exit_with_error (exn_msg e)).

End Plugin.


(** ** Concrete inputs *)

Definition unlines (ls : list string) : string :=
  String.concat (String LF "") ls.

(** A command line without debugging flags, [--no-download],
    [--no-upload] and [--always-ok]: the server and the levels [-w], [-c],
    [-W], [-C], [-m], [-M] as given. *)
Definition command_line (srv : option Z) (w c W C m M : option string)
  : Namespace :=
  {| ns_debug := false; ns_debug2 := false;
     ns_no_download := false; ns_no_upload := false;
     ns_always_ok := false; ns_server := srv;
     ns_download_warning := w; ns_download_critical := c;
     ns_upload_warning := W; ns_upload_critical := C;
     ns_download_max := m; ns_upload_max := M |}.

(** What [speedtest-cli] prints around its two result lines. *)
Definition banner : list string :=
  [ "Retrieving speedtest.net configuration...";
    "Testing from Example Net (192.0.2.10)...";
    "Retrieving speedtest.net server list...";
    "Selecting best server based on ping...";
    "Hosted by Example Host (Padova) [3.21 km]: 14.702 ms" ].

Definition full_output (down up : string) : string :=
  unlines (List.app banner
                    [ "Testing download speed........";
                      "Download: " ++ down ++ " Mbit/s";
                      "Testing upload speed........";
                      "Upload: " ++ up ++ " Mbit/s"; "" ]).

Definition download_only_output : string :=
  unlines (List.app banner
                    [ "Testing download speed........";
                      "Download: 50.00 Mbit/s"; "" ]).

Definition upload_only_output : string :=
  unlines (List.app banner
                    [ "Testing upload speed........";
                      "Upload: 12.10 Mbit/s"; "" ]).

Definition no_result_output : string :=
  unlines [ "Retrieving speedtest.net configuration...";
            "Cannot retrieve speedtest configuration"; "" ].

(** A child process that prints [text] whatever its arguments. *)
Definition prints (text : string) : list string -> exn + string :=
  fun _ => inr text.

(** The plugin object built from [-w 10 -c 2 -m 100]. *)
Definition with_download_max : CheckCommand :=
  {| debug := false; debug2 := false;
     no_download := false; no_upload := false;
     always_ok := false; server := None;
     download_warning := PFloat 10; download_critical := PFloat 2;
     upload_warning := PNone; upload_critical := PNone;
     download_max := PFloat 100; upload_max := PNone;
     speedtest_cmd := SPEEDTEST_CMD;
     download_speed := PNone; upload_speed := PNone |}.

(** The line and status of the run that recognised no speed at all. *)
Definition no_speed_recognised : exit_record :=
  ExitRecord 3 stderr
             "UNKNOWN - ERROR: No download and upload speed recognised".

(** The doubles nearest to 55.23 and to 12.1. *)
Definition f55_23 : float := 0x1.b9d70a3d70a3dp+5%float.
Definition f12_1 : float := 0x1.8333333333333p+3%float.

(** The plugin object built from [-w 10.0 -c 2.0], with the two speeds
    as given. *)
Definition with_download_levels (d u : pyval) : CheckCommand :=
  {| debug := false; debug2 := false;
     no_download := false; no_upload := false;
     always_ok := false; server := None;
     download_warning := PFloat 10; download_critical := PFloat 2;
     upload_warning := PNone; upload_critical := PNone;
     download_max := PNone; upload_max := PNone;
     speedtest_cmd := SPEEDTEST_CMD;
     download_speed := d; upload_speed := u |}.

(** ** Predicates used in the statements *)

(** No line feed in the text. *)
Fixpoint no_lf (s : string) : bool :=
  match s with
  | EmptyString => true
  | String a s' => negb (Ascii.eqb a LF) && no_lf s'
  end.

(** What [_manage_arguments] can leave in a level attribute: [None],
    the empty string or a float. *)
Definition is_level (v : pyval) : bool :=
  match v with
  | PNone | PFloat _ => true
  | PStr s => String.eqb s ""
  end.

(** What [_parse_output] can leave in a speed attribute. *)
Definition is_speed (v : pyval) : bool :=
  match v with
  | PNone | PFloat _ => true
  | PStr _ => false
  end.

(** An exit that follows the plugin convention: a status from 0 to 3,
    the standard output for 0 only, and a line that begins with the
    label of the status. *)
Definition conventional (r : exit_record) : Prop :=
  0 <= status r <= 3
  /\ (channel r = stdout <-> status r = 0)
  /\ exists label rest,
      dict_get ICINGA_LABELS (status r) = Some label
      /\ line r = label ++ rest.

(** The exit of [exit_with_error(msg)]. *)
Definition unknown (msg : string) : exit_record :=
  ExitRecord 3 stderr ("UNKNOWN - ERROR: " ++ msg).

(** Every exit of the computation follows the convention. *)
Definition exits_conventionally {A} (c : outcome A) : Prop :=
  forall r, c = Exit r -> conventional r.

(** The exception of [None < x] for a float [x]. *)
Definition none_vs_float : exn :=
  Exn TypeError
      "'<' not supported between instances of 'NoneType' and 'float'".

(** * Properties *)

(** A statement about a concrete run is settled by running the plugin. *)
Ltac run_plugin := vm_compute; reflexivity.

Section Properties.
Context {RT : Runtime}.

(** ** Both speeds absent *)

Lemma _parse_results_no_speed (self : CheckCommand) :
  truthy (download_speed self) = false ->
  truthy (upload_speed self) = false ->
  _parse_results self = Exit no_speed_recognised.
Proof.
  intros Hd Hu. unfold _parse_results. rewrite Hd, Hu. reflexivity.
Qed.

Lemma main_after_extraction (args : Namespace) (self self' : CheckCommand)
      (output : string) :
  __init__ args = Return self ->
  _compose_speedtest_command self = Return output ->
  _parse_output self output = Return self' ->
  main args =
    if debug2 self then _parse_results self'
    else try_except_Exception (_parse_results self')
                              (fun e => exit_with_error (exn_msg e)).
Proof.
  intros Hi Hc Hp. unfold main, handle.
  rewrite Hi. cbn [bind]. rewrite Hc. cbn [bind]. rewrite Hp. reflexivity.
Qed.

(** C1. When extraction leaves both speeds absent, [_parse_results]
    leaves at its first statement with status 3 and the line
    "UNKNOWN - ERROR: No download and upload speed recognised" on the
    error stream, and so does the whole run: the result is the same
    whatever the thresholds and [--always-ok] are.  No comparison is
    reached: a comparison with the absent speed would have raised
    ([check_levels_absent_download]).  The line carries neither
    performance data nor a status tag of a direction. *)
Theorem both_speeds_absent_unknown
        (args : Namespace) (self self' : CheckCommand) (output : string) :
  __init__ args = Return self ->
  _compose_speedtest_command self = Return output ->
  _parse_output self output = Return self' ->
  download_speed self' = PNone ->
  upload_speed self' = PNone ->
  _parse_results self' = Exit no_speed_recognised
  /\ handle self = Exit no_speed_recognised
  /\ main args = Exit no_speed_recognised
  /\ status no_speed_recognised = ICINGA_UNKNOWN.
Proof.
  intros Hi Hc Hp Hd Hu.
  assert (Hr : _parse_results self' = Exit no_speed_recognised)
    by (apply _parse_results_no_speed; [rewrite Hd | rewrite Hu]; reflexivity).
  repeat split.
  - exact Hr.
  - unfold handle. rewrite Hc. cbn [bind]. rewrite Hp. exact Hr.
  - rewrite (main_after_extraction _ _ _ _ Hi Hc Hp), Hr.
    destruct (debug2 self); reflexivity.
Qed.

(** ** Threshold evaluation *)

(** What [check_levels] computes, read off its four tests. *)
Lemma check_levels_inv (self : CheckCommand) (lv : Levels) :
  check_levels self = Return lv ->
  (always_ok self = true
   /\ exit_level lv = 0 /\ download_level lv = 0 /\ upload_level lv = 0)
  \/ (always_ok self = false
      /\ exists dw uw dc uc : bool,
          below (download_warning self) (download_speed self) = Return dw
          /\ below (upload_warning self) (upload_speed self) = Return uw
          /\ below (download_critical self) (download_speed self) = Return dc
          /\ below (upload_critical self) (upload_speed self) = Return uc
          /\ download_level lv = (if dc then 2 else if dw then 1 else 0)
          /\ upload_level lv = (if uc then 2 else if uw then 1 else 0)
          /\ exit_level lv = (if dc || uc then 2
                              else if dw || uw then 1 else 0)).
Proof.
  unfold check_levels. destruct (always_ok self); cbn [negb].
  - intros H. injection H as <-. left. repeat split.
  - destruct (below (download_warning self) (download_speed self))
      as [dw| |]; cbn [bind]; try discriminate.
    destruct (below (upload_warning self) (upload_speed self))
      as [uw| |]; cbn [bind]; try discriminate.
    destruct (below (download_critical self) (download_speed self))
      as [dc| |]; cbn [bind]; try discriminate.
    destruct (below (upload_critical self) (upload_speed self))
      as [uc| |]; cbn [bind]; try discriminate.
    intros H. injection H as <-. right. split; [reflexivity|].
    exists dw, uw, dc, uc.
    destruct dw, uw, dc, uc; repeat split.
Qed.

Lemma check_levels_range (self : CheckCommand) (lv : Levels) :
  check_levels self = Return lv ->
  0 <= download_level lv <= 2 /\ 0 <= upload_level lv <= 2.
Proof.
  intros H. destruct (check_levels_inv _ _ H)
    as [(_ & _ & -> & ->) | (_ & dw & uw & dc & uc & _ & _ & _ & _ & -> & -> & _)].
  - lia.
  - destruct dw, uw, dc, uc; lia.
Qed.

Lemma _compose_level_string_total (level : Z) (prepend l r : string) :
  0 <= level <= 3 ->
  exists s, _compose_level_string level false prepend l r = Return s.
Proof.
  intros H. unfold _compose_level_string.
  assert (level = 0 \/ level = 1 \/ level = 2 \/ level = 3)
    as [-> | [-> | [-> | ->]]] by lia; cbn; eexists; reflexivity.
Qed.

Lemma _compose_output_message_total (d u : pyval) (dl ul : Z) :
  0 <= dl <= 3 -> 0 <= ul <= 3 ->
  exists m, _compose_output_message d u dl ul = Return m.
Proof.
  intros Hd Hu. unfold _compose_output_message.
  destruct (_compose_level_string_total dl " " "[" "]" Hd) as [sd Ed].
  destruct (_compose_level_string_total ul " " "[" "]" Hu) as [su Eu].
  rewrite Ed, Eu. destruct (truthy d); cbn [bind]; eexists; reflexivity.
Qed.

(** C2. Whenever the threshold checks run to their end, the exit level
    they leave is the maximum of the download level and the upload level,
    and it is the status with which the run leaves (some speed being
    present).  With [--always-ok] off, a speed below the configured
    critical level of its direction gives that direction the level
    CRITICAL whatever the warning check did before: for a speed below
    both levels the critical check, which comes later, overrides the
    WARNING that the warning check set, and no later check lowers it. *)
Theorem exit_level_is_max (self : CheckCommand) (lv : Levels) :
  check_levels self = Return lv ->
  exit_level lv = Z.max (download_level lv) (upload_level lv)
  /\ (truthy (download_speed self) || truthy (upload_speed self) = true ->
      exists ch msg,
        _parse_results self =
          Exit (ExitRecord (Z.max (download_level lv) (upload_level lv))
                           ch msg))
  /\ (always_ok self = false ->
      truthy (download_critical self) = true ->
      Py.lt (download_speed self) (download_critical self) = Return true ->
      download_level lv = ICINGA_CRITICAL)
  /\ (always_ok self = false ->
      truthy (upload_critical self) = true ->
      Py.lt (upload_speed self) (upload_critical self) = Return true ->
      upload_level lv = ICINGA_CRITICAL).
Proof.
  intros H.
  assert (Hmax : exit_level lv = Z.max (download_level lv) (upload_level lv)).
  { destruct (check_levels_inv _ _ H)
      as [(_ & -> & -> & ->)
         | (_ & dw & uw & dc & uc & _ & _ & _ & _ & -> & -> & ->)].
    - reflexivity.
    - destruct dw, uw, dc, uc; reflexivity. }
  split; [exact Hmax|]. split; [|split].
  - intros Hs. unfold _parse_results.
    destruct (check_levels_range _ _ H) as [Hd Hu].
    destruct (_compose_output_message_total
                (download_speed self) (upload_speed self)
                (download_level lv) (upload_level lv)) as [m Em]; [lia|lia|].
    apply orb_true_iff in Hs.
    assert (Hb : negb (truthy (download_speed self))
                 && negb (truthy (upload_speed self)) = false)
      by (destruct Hs as [-> | ->]; cbn; auto using andb_false_r).
    rewrite Hb. cbn [exit_if bind]. rewrite H. cbn [bind].
    rewrite Em. cbn [bind].
    unfold icinga_exit. rewrite Hmax. eexists _, _. reflexivity.
  - intros Ha Hc Lc.
    destruct (check_levels_inv _ _ H)
      as [(Ha' & _) | (_ & dw & uw & dc & uc & _ & _ & Edc & _ & -> & _)];
      [congruence|].
    unfold below in Edc. rewrite Hc, Lc in Edc. injection Edc as <-.
    reflexivity.
  - intros Ha Hc Lc.
    destruct (check_levels_inv _ _ H)
      as [(Ha' & _) | (_ & dw & uw & dc & uc & _ & _ & _ & Euc & _ & -> & _)];
      [congruence|].
    unfold below in Euc. rewrite Hc, Lc in Euc. injection Euc as <-.
    reflexivity.
Qed.

(** Python's [==] on two floats excludes [<]. *)
Lemma eqb_not_ltb (x y : float) :
  PrimFloat.eqb x y = true -> PrimFloat.ltb x y = false.
Proof.
  rewrite eqb_spec, ltb_spec. unfold SFeqb, SFltb.
  destruct (SFcompare (Prim2SF x) (Prim2SF y)) as [[]|]; congruence.
Qed.

Lemma below_equal (v t : float) :
  PrimFloat.eqb v t = true -> below (PFloat t) (PFloat v) = Return false.
Proof.
  intros E. unfold below. cbn [Py.lt]. rewrite (eqb_not_ltb _ _ E).
  destruct (truthy (PFloat t)); reflexivity.
Qed.

(** C9. The test is a strict [<]: for a speed [v] equal to a level [t],
    the test [t and v < t] is false, so the check of that level leaves
    the direction's level alone.  With the warning level equal to the
    speed the direction's level is OK, or CRITICAL by the other check;
    with the critical level equal to the speed it is OK, or WARNING by
    the other check; with both equal to the speed it is OK. *)
Theorem equal_to_threshold_is_no_breach
        (self : CheckCommand) (lv : Levels) (v t : float) :
  check_levels self = Return lv ->
  PrimFloat.eqb v t = true ->
  below (PFloat t) (PFloat v) = Return false
  /\ (download_speed self = PFloat v ->
      (download_warning self = PFloat t ->
       download_level lv = ICINGA_OK
       \/ (download_level lv = ICINGA_CRITICAL
           /\ below (download_critical self) (PFloat v) = Return true))
      /\ (download_critical self = PFloat t ->
          download_level lv = ICINGA_OK
          \/ (download_level lv = ICINGA_WARNING
              /\ below (download_warning self) (PFloat v) = Return true))
      /\ (download_warning self = PFloat t ->
          download_critical self = PFloat t ->
          download_level lv = ICINGA_OK))
  /\ (upload_speed self = PFloat v ->
      (upload_warning self = PFloat t ->
       upload_level lv = ICINGA_OK
       \/ (upload_level lv = ICINGA_CRITICAL
           /\ below (upload_critical self) (PFloat v) = Return true))
      /\ (upload_critical self = PFloat t ->
          upload_level lv = ICINGA_OK
          \/ (upload_level lv = ICINGA_WARNING
              /\ below (upload_warning self) (PFloat v) = Return true))
      /\ (upload_warning self = PFloat t ->
          upload_critical self = PFloat t ->
          upload_level lv = ICINGA_OK)).
Proof.
  intros H E. pose proof (below_equal _ _ E) as B.
  split; [exact B|].
  destruct (check_levels_inv _ _ H)
    as [(_ & _ & -> & ->)
       | (_ & dw & uw & dc & uc & Edw & Euw & Edc & Euc & -> & -> & _)].
  - split; intros _; (split; [|split]); intros;
      first [left; reflexivity | reflexivity].
  - split; intros Hs; rewrite Hs in *; (split; [|split]).
    + intros Hw. rewrite Hw, B in Edw. injection Edw as <-.
      destruct dc; [right | left]; auto.
    + intros Hc. rewrite Hc, B in Edc. injection Edc as <-.
      destruct dw; [right | left]; auto.
    + intros Hw Hc. rewrite Hw, B in Edw. rewrite Hc, B in Edc.
      injection Edw as <-. injection Edc as <-. reflexivity.
    + intros Hw. rewrite Hw, B in Euw. injection Euw as <-.
      destruct uc; [right | left]; auto.
    + intros Hc. rewrite Hc, B in Euc. injection Euc as <-.
      destruct uw; [right | left]; auto.
    + intros Hw Hc. rewrite Hw, B in Euw. rewrite Hc, B in Euc.
      injection Euw as <-. injection Euc as <-. reflexivity.
Qed.

End Properties.

(** ** Extraction of the two speeds *)

Lemma first_match_skip (prefix suffix l g : string) (pre post : list string) :
  Forall (fun x => match_line prefix suffix x = None) pre ->
  match_line prefix suffix l = Some g ->
  first_match prefix suffix (pre ++ l :: post) = Some g.
Proof.
  intros Hpre Hl. induction Hpre as [|x pre Hx _ IH]; cbn.
  - rewrite Hl. reflexivity.
  - rewrite Hx. exact IH.
Qed.

Lemma extract_speed_cases {RT : Runtime} (prefix output : string) :
  extract_speed prefix output =
    Return match re_search_group prefix " Mbit/s" output with
           | None => PNone
           | Some g => match float_of_str g with
                       | Some f => PFloat f
                       | None => PNone
                       end
           end.
Proof.
  unfold extract_speed, to_float.
  destruct (re_search_group prefix " Mbit/s" output) as [g|]; cbn;
    [destruct (float_of_str g)|]; reflexivity.
Qed.

(** C5. [_parse_output] always returns: no exception leaves it.  Each
    speed depends on its own search alone: it is absent when no line has
    the form, absent when the text between prefix and suffix of the first
    such line is not a float, and that float otherwise.  With the
    interpreter's [float], a text whose first line of the download form
    is "Download: 55.23 Mbit/s" and whose first line of the upload form
    is "Upload: 12.10 Mbit/s" gives the doubles nearest to 55.23 and to
    12.1, which print as "55.23" and "12.1". *)
Theorem _parse_output_total_and_independent
        (RT : Runtime) (self : CheckCommand) (output : string) :
  (exists d u : pyval,
      _parse_output self output = Return (set_speeds self d u)
      /\ (re_search_group "Download: " " Mbit/s" output = None -> d = PNone)
      /\ (forall g, re_search_group "Download: " " Mbit/s" output = Some g ->
                    float_of_str g = None -> d = PNone)
      /\ (forall g f, re_search_group "Download: " " Mbit/s" output = Some g ->
                      float_of_str g = Some f -> d = PFloat f)
      /\ (re_search_group "Upload: " " Mbit/s" output = None -> u = PNone)
      /\ (forall g, re_search_group "Upload: " " Mbit/s" output = Some g ->
                    float_of_str g = None -> u = PNone)
      /\ (forall g f, re_search_group "Upload: " " Mbit/s" output = Some g ->
                      float_of_str g = Some f -> u = PFloat f))
  /\ (forall (child : list string -> exn + string)
             (pre post pre' post' : list string),
         split_lines output = (pre ++ "Download: 55.23 Mbit/s" :: post)%list ->
         Forall (fun l => match_line "Download: " " Mbit/s" l = None) pre ->
         split_lines output = (pre' ++ "Upload: 12.10 Mbit/s" :: post')%list ->
         Forall (fun l => match_line "Upload: " " Mbit/s" l = None) pre' ->
         @_parse_output (cpython child) self output =
           Return (set_speeds self (PFloat f55_23) (PFloat f12_1)))
  /\ CPython.float_of_str "55.23" = Some f55_23
  /\ CPython.float_of_str "12.10" = Some f12_1
  /\ CPython.str_of_float f55_23 = "55.23"
  /\ CPython.str_of_float f12_1 = "12.1".
Proof.
  split; [|split; [|repeat split; run_plugin]].
  - unfold _parse_output. rewrite !extract_speed_cases. cbn [bind].
    eexists _, _. split; [reflexivity|].
    repeat split.
    + intros ->. reflexivity.
    + intros g -> ->. reflexivity.
    + intros g f -> ->. reflexivity.
    + intros ->. reflexivity.
    + intros g -> ->. reflexivity.
    + intros g f -> ->. reflexivity.
  - intros child pre post pre' post' Hd Hpre Hu Hpre'.
    unfold _parse_output. rewrite !extract_speed_cases.
    unfold re_search_group. rewrite Hd at 1. rewrite Hu.
    rewrite (first_match_skip _ _ _ "55.23" pre post Hpre)
      by run_plugin.
    rewrite (first_match_skip _ _ _ "12.10" pre' post' Hpre')
      by run_plugin.
    cbn [bind float_of_str cpython].
    replace (CPython.float_of_str "55.23") with (Some f55_23)
      by run_plugin.
    replace (CPython.float_of_str "12.10") with (Some f12_1)
      by run_plugin.
    reflexivity.
Qed.

(** ** A threshold against an absent speed *)

Lemma below_absent_raises (t : pyval) :
  truthy t = true ->
  below t PNone = Raise (not_supported "<" PNone t).
Proof.
  intros H. unfold below. rewrite H. destruct t; reflexivity.
Qed.

Lemma check_levels_absent_download (self : CheckCommand) :
  always_ok self = false ->
  download_speed self = PNone ->
  truthy (download_warning self) = true ->
  check_levels self = Raise (not_supported "<" PNone (download_warning self)).
Proof.
  intros Ha Hd Ht. unfold check_levels.
  rewrite Ha, Hd, (below_absent_raises _ Ht). reflexivity.
Qed.

Lemma check_levels_absent_upload (self : CheckCommand) (d : float) :
  always_ok self = false ->
  download_speed self = PFloat d ->
  upload_speed self = PNone ->
  download_warning self = PNone ->
  truthy (upload_warning self) = true ->
  check_levels self = Raise (not_supported "<" PNone (upload_warning self)).
Proof.
  intros Ha Hd Hu Hw Ht. unfold check_levels.
  rewrite Ha, Hd, Hu, Hw, (below_absent_raises _ Ht). reflexivity.
Qed.

(** C3. With [-W 5] and an output that has the download line only, the
    comparison [None < 5.0] is evaluated and raises [TypeError]; the
    top-level handler turns it into UNKNOWN.  The same happens with
    [-w 10] and an output that has the upload line only.  Without the
    threshold the first output ends with OK. *)
Theorem absent_speed_with_threshold_is_unknown :
  @main (cpython (prints download_only_output))
        (command_line None None None (Some "5") None None None)
  = Exit (ExitRecord 3 stderr
            "UNKNOWN - ERROR: '<' not supported between instances of 'NoneType' and 'float'")
  /\ @main (cpython (prints upload_only_output))
           (command_line None (Some "10") None None None None None)
     = Exit (ExitRecord 3 stderr
               "UNKNOWN - ERROR: '<' not supported between instances of 'NoneType' and 'float'")
  /\ exists msg,
      @main (cpython (prints download_only_output))
            (command_line None None None None None None None)
      = Exit (ExitRecord 0 stdout msg).
Proof.
  split; [|split; [|eexists]]; run_plugin.
Qed.

(** ** The maximum levels *)

(** On two floats the check of a maximum does what it says. *)
Lemma check_max_floats (mx c w : float) (mc mw : string) :
  truthy (PFloat mx) = true ->
  check_max (PFloat mx) (PFloat c) (PFloat w) mc mw =
    if PrimFloat.ltb mx c then exit_with_error mc
    else if PrimFloat.ltb mx w then exit_with_error mw
    else Return tt.
Proof.
  intros H. unfold check_max. rewrite H. cbn [Py.lt bind].
  destruct (PrimFloat.ltb mx c); cbn; [reflexivity|].
  destruct (PrimFloat.ltb mx w); reflexivity.
Qed.

Lemma check_max_unset_critical (mx w : pyval) (mc mw : string) :
  truthy mx = true ->
  check_max mx PNone w mc mw = Raise (not_supported "<" mx PNone).
Proof.
  intros H. unfold check_max. rewrite H. destruct mx; reflexivity.
Qed.

(** C4. With [-m 100] and no download threshold the constructor
    evaluates [100.0 < None]: a [TypeError] leaves it, outside the
    [try] of the main block, before the child process is started.  The
    construction neither succeeds nor ends with UNKNOWN.  The same holds
    for [-M]. *)
Theorem max_without_thresholds_raises
        (child : list string -> exn + string) :
  @__init__ (cpython child)
            (command_line None None None None None (Some "100") None)
  = Raise (Exn TypeError
             "'<' not supported between instances of 'float' and 'NoneType'")
  /\ @main (cpython child)
           (command_line None None None None None (Some "100") None)
     = Raise (Exn TypeError
                "'<' not supported between instances of 'float' and 'NoneType'")
  /\ @main (cpython child)
           (command_line None None None None None None (Some "20"))
     = Raise (Exn TypeError
                "'<' not supported between instances of 'float' and 'NoneType'").
Proof.
  repeat split; run_plugin.
Qed.

(** ** Performance data *)

(** The ceiling of each entry and the floor of the upload entry follow
    the direction's own maximum. *)
Lemma _compose_perfdata_shape {RT : Runtime}
      (ds dw dc dm us uw uc um : pyval) :
  _compose_perfdata ds dw dc dm us uw uc um =
    [ "'download_speed'="
        ++ String.concat ";"
             [ if truthy ds then Py.str ds ++ "Mbit/sec" else "NaN";
               str_or_null dw; str_or_null dc;
               if truthy um then str_of_float 0%float else "NaN";
               if truthy dm then Py.str dm else "NaN" ];
      "'upload_speed'="
        ++ String.concat ";"
             [ if truthy us then Py.str us ++ "Mbit/sec" else "NaN";
               str_or_null uw; str_or_null uc;
               if truthy um then str_of_float 0%float else "NaN";
               if truthy um then Py.str um else "NaN" ] ].
Proof. reflexivity. Qed.

(** C6. The floor of the download entry follows the upload maximum:
    with [-m 100] and no [-M] it is the sentinel although the ceiling is
    100.0, and with [-M 20] and no [-m] it is 0.0 although the ceiling
    is the sentinel. *)
Theorem download_floor_follows_upload_max :
  @_compose_perfdata (cpython (prints ""))
     (PFloat 50) (PFloat 10) (PFloat 2) (PFloat 100)
     (PFloat f12_1) PNone PNone PNone
  = [ "'download_speed'=50.0Mbit/sec;10.0;2.0;NaN;100.0";
      "'upload_speed'=12.1Mbit/sec;NaN;NaN;NaN;NaN" ]
  /\ @_compose_perfdata (cpython (prints ""))
       (PFloat 50) PNone PNone PNone
       (PFloat f12_1) (PFloat 5) (PFloat 1) (PFloat 20)
     = [ "'download_speed'=50.0Mbit/sec;NaN;NaN;0.0;NaN";
         "'upload_speed'=12.1Mbit/sec;5.0;1.0;0.0;20.0" ]
  /\ @main (cpython (prints (full_output "50.00" "12.10")))
           (command_line None (Some "10") (Some "2") None None
                         (Some "100") None)
     = Exit (ExitRecord 0 stdout
               ("OK - Download speed: 50.0 Mbit/sec, Upload speed: 12.1 Mbit/sec"
                ++ " |'download_speed'=50.0Mbit/sec;10.0;2.0;NaN;100.0"
                ++ " 'upload_speed'=12.1Mbit/sec;NaN;NaN;NaN;NaN")).
Proof.
  repeat split; run_plugin.
Qed.

(** ** The summary *)

(** The absent speed is the sentinel in the performance data. *)
Lemma _compose_perfdata_absent {RT : Runtime}
      (ds dw dc dm us uw uc um : pyval) :
  (truthy ds = false ->
   exists rest u,
     _compose_perfdata ds dw dc dm us uw uc um =
       [ "'download_speed'=NaN;" ++ rest; u ])
  /\ (truthy us = false ->
      exists rest d,
        _compose_perfdata ds dw dc dm us uw uc um =
          [ d; "'upload_speed'=NaN;" ++ rest ]).
Proof.
  rewrite _compose_perfdata_shape.
  split; intros ->; eexists _, _; cbn; reflexivity.
Qed.

(** C7. Both branches of the summary test the download speed.  With the
    download line only, the absent upload speed is printed as
    "Upload speed: None Mbit/sec"; with the upload line only, the summary
    is "No download speed, No upload speed" and the measured 12.1 is not
    in it.  The performance data have the sentinel for the absent speed
    in both runs. *)
Theorem summary_tests_download_speed_twice :
  @main (cpython (prints download_only_output))
        (command_line None None None None None None None)
  = Exit (ExitRecord 0 stdout
            ("OK - Download speed: 50.0 Mbit/sec, Upload speed: None Mbit/sec"
             ++ " |'download_speed'=50.0Mbit/sec;NaN;NaN;NaN;NaN"
             ++ " 'upload_speed'=NaN;NaN;NaN;NaN;NaN"))
  /\ @main (cpython (prints upload_only_output))
           (command_line None None None None None None None)
     = Exit (ExitRecord 0 stdout
               ("OK - No download speed, No upload speed"
                ++ " |'download_speed'=NaN;NaN;NaN;NaN;NaN"
                ++ " 'upload_speed'=12.1Mbit/sec;NaN;NaN;NaN;NaN")).
Proof.
  split; run_plugin.
Qed.

(** ** The command *)

(** Without a server the list is made of strings and the child runs. *)
Lemma speedtest_command_without_server {RT : Runtime} (self : CheckCommand) :
  server self = None \/ server self = Some 0 ->
  speedtest_command self =
    (CStr (speedtest_cmd self)
       :: (if no_download self then [CStr "--no-download"] else [])
       ++ (if no_upload self then [CStr "--no-upload"] else []))%list
  /\ _compose_speedtest_command self =
       match run_stdout
               (speedtest_cmd self
                  :: (if no_download self then ["--no-download"] else [])
                  ++ (if no_upload self then ["--no-upload"] else []))%list
       with
       | inr output => Return output
       | inl e => Raise e
       end.
Proof.
  intros H. unfold _compose_speedtest_command, speedtest_command.
  assert (E : match server self with
              | Some n => negb (n =? 0)
              | None => false
              end = false) by (destruct H as [-> | ->]; reflexivity).
  destruct (server self) as [n|]; [rewrite E|];
    destruct (no_download self), (no_upload self); split; reflexivity.
Qed.

(** C8. With [--server 1234] the third element appended is the integer
    that [type=int] made of the argument, not a string; [subprocess.run]
    raises [TypeError] on it before any child is started, and the run
    ends with UNKNOWN whatever the child would have printed. *)
Theorem server_id_is_appended_as_int
        (child : list string -> exn + string) :
  (self <- @__init__ (cpython child)
             (command_line (Some 1234) None None None None None None) ;;
   Return (speedtest_command self))
  = Return [CStr "speedtest-cli"; CStr "--server"; CInt 1234]
  /\ @subprocess_run (cpython child)
       [CStr "speedtest-cli"; CStr "--server"; CInt 1234]
     = Raise (Exn TypeError
                "expected str, bytes or os.PathLike object, not int")
  /\ @main (cpython child)
           (command_line (Some 1234) None None None None None None)
     = Exit (ExitRecord 3 stderr
               "UNKNOWN - ERROR: expected str, bytes or os.PathLike object, not int").
Proof.
  repeat split; run_plugin.
Qed.

(** ** A speed of zero *)

(** A zero speed is false like an absent one: two of them end the run
    as no speed at all does, a zero download speed is "No download
    speed" in the summary, and a zero speed of either direction is the
    sentinel in the performance data. *)
Lemma zero_speed_is_false (z : float) :
  PrimFloat.eqb z 0 = true -> truthy (PFloat z) = false.
Proof. intros H. cbn. rewrite H. reflexivity. Qed.

Lemma _parse_results_zero_speeds {RT : Runtime} (self : CheckCommand) :
  download_speed self = PFloat 0 ->
  upload_speed self = PFloat 0 ->
  _parse_results self = Exit no_speed_recognised.
Proof.
  intros Hd Hu. apply _parse_results_no_speed; [rewrite Hd | rewrite Hu];
    reflexivity.
Qed.

Lemma _compose_output_message_zero_download {RT : Runtime}
      (u : pyval) (dl ul : Z) :
  _compose_output_message (PFloat 0) u dl ul =
    Return "No download speed, No upload speed".
Proof. reflexivity. Qed.

(** C10. A zero upload speed next to a measured download speed is
    printed in the summary as the number 0.0, by the second test of the
    download speed in [_compose_output_message]; the performance data of
    the same run have the sentinel for it. *)
Theorem zero_upload_speed_is_printed_as_number :
  @main (cpython (prints (full_output "50.00" "0.00")))
        (command_line None None None None None None None)
  = Exit (ExitRecord 0 stdout
            ("OK - Download speed: 50.0 Mbit/sec, Upload speed: 0.0 Mbit/sec"
             ++ " |'download_speed'=50.0Mbit/sec;NaN;NaN;NaN;NaN"
             ++ " 'upload_speed'=NaN;NaN;NaN;NaN;NaN"))
  /\ @main (cpython (prints (full_output "0.00" "0.00")))
           (command_line None None None None None None None)
     = Exit no_speed_recognised.
Proof.
  split; run_plugin.
Qed.

(** * Instances on concrete runs *)

Lemma both_speeds_absent_unknown_witness :
  @main (cpython (prints no_result_output))
        (command_line None (Some "10.0") (Some "2.0") None None None None)
  = Exit no_speed_recognised.
Proof.
  refine (proj1 (proj2 (proj2
    (@both_speeds_absent_unknown (cpython (prints no_result_output))
       (command_line None (Some "10.0") (Some "2.0") None None None None)
       (with_download_levels PNone PNone)
       (with_download_levels PNone PNone)
       no_result_output _ _ _ _ _))));
    run_plugin.
Defined.

Lemma exit_level_is_max_witness :
  exists lv : Levels,
    check_levels (with_download_levels (PFloat 1) (PFloat f12_1)) = Return lv
    /\ Py.lt (PFloat 1) (PFloat 10) = Return true
    /\ Py.lt (PFloat 1) (PFloat 2) = Return true
    /\ exit_level lv = Z.max (download_level lv) (upload_level lv)
    /\ download_level lv = ICINGA_CRITICAL.
Proof.
  exists {| exit_level := 2; download_level := 2; upload_level := 0 |}.
  assert (H : check_levels (with_download_levels (PFloat 1) (PFloat f12_1))
              = Return {| exit_level := 2; download_level := 2;
                          upload_level := 0 |})
    by run_plugin.
  split; [exact H|].
  split; [run_plugin|].
  split; [run_plugin|].
  pose proof (@exit_level_is_max (cpython (prints "")) _ _ H)
    as (Hmax & _ & Hcrit & _).
  split; [exact Hmax|].
  apply Hcrit; run_plugin.
Defined.

Lemma equal_to_threshold_is_no_breach_witness :
  exists lv : Levels,
    check_levels (with_download_levels (PFloat 10) (PFloat f12_1)) = Return lv
    /\ PrimFloat.eqb 10 10 = true
    /\ below (PFloat 10) (PFloat 10) = Return false
    /\ download_level lv = ICINGA_OK.
Proof.
  exists {| exit_level := 0; download_level := 0; upload_level := 0 |}.
  assert (H : check_levels (with_download_levels (PFloat 10) (PFloat f12_1))
              = Return {| exit_level := 0; download_level := 0;
                          upload_level := 0 |})
    by run_plugin.
  assert (E : PrimFloat.eqb 10 10 = true) by run_plugin.
  split; [exact H|]. split; [exact E|].
  pose proof (equal_to_threshold_is_no_breach _ _ 10%float 10%float H E)
    as (Hb & Hd & _).
  split; [exact Hb|].
  destruct (Hd eq_refl) as (Hw & _ & _).
  destruct (Hw eq_refl) as [H0 | [H2 _]]; [exact H0 | discriminate H2].
Defined.

Lemma _parse_output_total_and_independent_witness :
  @_parse_output (cpython (prints (full_output "55.23" "12.10")))
                 (with_download_levels PNone PNone)
                 (full_output "55.23" "12.10")
  = Return (with_download_levels (PFloat f55_23) (PFloat f12_1)).
Proof.
  refine (proj1 (proj2
    (_parse_output_total_and_independent
       (cpython (prints (full_output "55.23" "12.10")))
       (with_download_levels PNone PNone)
       (full_output "55.23" "12.10")))
    (prints (full_output "55.23" "12.10"))
    (banner ++ ["Testing download speed........"])%list
    ["Testing upload speed........"; "Upload: 12.10 Mbit/s"; ""]
    (banner ++ ["Testing download speed........";
                "Download: 55.23 Mbit/s";
                "Testing upload speed........"])%list
    [""] _ _ _ _);
    try run_plugin;
    repeat (constructor; [run_plugin|]); constructor.
Defined.

(** * Further properties *)

(** ** Strings *)

Lemma length_append (a b : string) :
  String.length (a ++ b) = (String.length a + String.length b)%nat.
Proof. induction a as [|c a IH]; cbn; [reflexivity | now rewrite IH]. Qed.

Lemma prefix_append (p x : string) : String.prefix p (p ++ x) = true.
Proof.
  induction p as [|c p IH]; cbn.
  - destruct x; reflexivity.
  - destruct (ascii_dec c c); [exact IH | contradiction].
Qed.

Lemma prefix_split (p l : string) :
  String.prefix p l = true -> exists r, l = p ++ r.
Proof.
  revert l. induction p as [|c p IH]; intros l H.
  - exists l. reflexivity.
  - destruct l as [|d l]; cbn in H; [discriminate|].
    destruct (ascii_dec c d) as [->|]; [|discriminate].
    destruct (IH _ H) as [r ->]. exists r. reflexivity.
Qed.

Lemma split_at (n : nat) (l : string) :
  (n <= String.length l)%nat ->
  exists a b, l = a ++ b /\ String.length a = n.
Proof.
  revert l. induction n as [|n IH]; intros l H.
  - exists "", l. split; reflexivity.
  - destruct l as [|c l]; cbn in H; [lia|].
    destruct (IH l) as (a & b & -> & <-); [lia|].
    exists (String c a), b. split; reflexivity.
Qed.

Lemma substring_skip (a b : string) (i m : nat) :
  substring (String.length a + i) m (a ++ b) = substring i m b.
Proof. induction a as [|c a IH]; cbn; [reflexivity | exact IH]. Qed.

Lemma substring_take (a b : string) :
  substring 0 (String.length a) (a ++ b) = a.
Proof.
  induction a as [|c a IH]; cbn.
  - destruct b; reflexivity.
  - now rewrite IH.
Qed.

Lemma substring_all (s : string) : substring 0 (String.length s) s = s.
Proof. induction s as [|c s IH]; cbn; [reflexivity | now rewrite IH]. Qed.

Lemma substring_middle (p g s : string) :
  substring (String.length p) (String.length g) (p ++ g ++ s) = g.
Proof.
  pose proof (substring_skip p (g ++ s) 0 (String.length g)) as H.
  rewrite Nat.add_0_r in H. rewrite H. apply substring_take.
Qed.

Lemma substring_end (p g s : string) :
  substring (String.length p + String.length g) (String.length s)
            (p ++ g ++ s) = s.
Proof.
  rewrite substring_skip.
  pose proof (substring_skip g s 0 (String.length s)) as H.
  rewrite Nat.add_0_r in H. rewrite H. apply substring_all.
Qed.

(** ** The search, line by line *)

Lemma match_line_intro (p s g : string) :
  g <> "" -> match_line p s (p ++ g ++ s) = Some g.
Proof.
  intros Hg. unfold match_line.
  rewrite prefix_append, !length_append.
  assert (Hl : (0 < String.length g)%nat)
    by (destruct g; [contradiction | cbn; lia]).
  replace (Nat.ltb (String.length p + String.length s)
                   (String.length p + (String.length g + String.length s)))
    with true by (symmetry; apply Nat.ltb_lt; lia).
  replace (String.length p + (String.length g + String.length s)
           - String.length s)%nat
    with (String.length p + String.length g)%nat by lia.
  rewrite substring_end, String.eqb_refl. cbn [andb].
  replace (String.length p + String.length g - String.length p)%nat
    with (String.length g) by lia.
  rewrite substring_middle. reflexivity.
Qed.

Lemma match_line_elim (p s l g : string) :
  match_line p s l = Some g -> l = p ++ g ++ s /\ g <> "".
Proof.
  unfold match_line.
  destruct (String.prefix p l) eqn:Hp; cbn [andb]; [|discriminate].
  destruct (Nat.ltb _ _) eqn:Hn; cbn [andb]; [|discriminate].
  destruct (String.eqb _ s) eqn:Hs; [|discriminate].
  intros H. injection H as <-.
  apply Nat.ltb_lt in Hn. apply String.eqb_eq in Hs.
  destruct (prefix_split _ _ Hp) as [r ->].
  rewrite length_append in *.
  destruct (split_at (String.length r - String.length s) r)
    as (g & t & -> & Hg); [lia|].
  rewrite length_append in *.
  assert (Ht : String.length s = String.length t) by lia.
  replace (String.length p + (String.length g + String.length t)
           - String.length s)%nat
    with (String.length p + String.length g)%nat in * by lia.
  rewrite Ht, substring_end in Hs. subst t.
  replace (String.length p + String.length g - String.length p)%nat
    with (String.length g) by lia.
  rewrite substring_middle.
  split; [reflexivity|].
  intros ->. cbn in Hn. lia.
Qed.

(** X1. A line is matched by the pattern exactly when it is the prefix,
    a non-empty text and the suffix; the group is that text, taken as it
    is. *)
Theorem match_line_iff (p s l g : string) :
  match_line p s l = Some g <-> l = p ++ g ++ s /\ g <> "".
Proof.
  split.
  - apply match_line_elim.
  - intros [-> Hg]. apply match_line_intro, Hg.
Qed.

Lemma split_lines_no_lf (x : string) :
  no_lf x = true -> split_lines x = [x].
Proof.
  induction x as [|c x IH]; cbn; [reflexivity|].
  intros H. apply andb_true_iff in H as [Hc Hx].
  apply negb_true_iff in Hc. rewrite Hc, (IH Hx). reflexivity.
Qed.

Lemma split_lines_line (x rest : string) :
  no_lf x = true ->
  split_lines (x ++ String LF rest) = x :: split_lines rest.
Proof.
  induction x as [|c x IH]; cbn; [reflexivity|].
  intros H. apply andb_true_iff in H as [Hc Hx].
  apply negb_true_iff in Hc. rewrite Hc, (IH Hx). reflexivity.
Qed.

(** [split_lines] undoes the joining of lines by line feeds. *)
Lemma split_lines_unlines (ls : list string) :
  ls <> [] ->
  Forall (fun l => no_lf l = true) ls ->
  split_lines (unlines ls) = ls.
Proof.
  intros Hne H. induction H as [|x ls Hx Hls IH]; [contradiction|].
  destruct ls as [|y ls].
  - cbn. apply split_lines_no_lf, Hx.
  - change (unlines (x :: y :: ls))
      with (x ++ String LF (unlines (y :: ls))).
    rewrite (split_lines_line _ _ Hx), IH; [reflexivity | discriminate].
Qed.

Lemma first_match_none (p s : string) (ls : list string) :
  Forall (fun l => match_line p s l = None) ls ->
  first_match p s ls = None.
Proof.
  induction 1 as [|x ls Hx _ IH]; cbn; [reflexivity|].
  rewrite Hx. exact IH.
Qed.

Lemma match_line_empty (p s : string) : match_line p s "" = None.
Proof.
  unfold match_line. cbn [String.length].
  replace (Nat.ltb (String.length p + String.length s) 0) with false
    by (symmetry; apply Nat.ltb_ge; lia).
  rewrite andb_false_r. reflexivity.
Qed.

Lemma re_search_group_none (p s : string) (ls : list string) :
  Forall (fun l => no_lf l = true) ls ->
  Forall (fun l => match_line p s l = None) ls ->
  re_search_group p s (unlines ls) = None.
Proof.
  intros Hlf Hno. unfold re_search_group. destruct ls as [|x xs].
  - cbn. rewrite match_line_empty. reflexivity.
  - rewrite split_lines_unlines; [|discriminate|exact Hlf].
    apply first_match_none, Hno.
Qed.

(** X2. In a text made of lines joined by line feeds, the search
    returns the group of the first line of the form, whatever the lines
    before it (which do not have the form) and after it are. *)
Theorem re_search_group_first_line
        (p s g : string) (pre post : list string) :
  g <> "" ->
  Forall (fun l => no_lf l = true) (pre ++ (p ++ g ++ s) :: post) ->
  Forall (fun l => match_line p s l = None) pre ->
  re_search_group p s (unlines (pre ++ (p ++ g ++ s) :: post)) = Some g.
Proof.
  intros Hg Hlf Hpre. unfold re_search_group.
  rewrite split_lines_unlines; [|destruct pre; discriminate|exact Hlf].
  apply first_match_skip; [exact Hpre|]. apply match_line_intro, Hg.
Qed.

Lemma re_search_group_first_line_witness :
  re_search_group "Download: " " Mbit/s" (full_output "55.23" "12.10")
  = Some "55.23".
Proof.
  refine (re_search_group_first_line
            "Download: " " Mbit/s" "55.23"
            (banner ++ ["Testing download speed........"])%list
            ["Testing upload speed........"; "Upload: 12.10 Mbit/s"; ""]
            _ _ _);
    [ discriminate
    | repeat (constructor; [reflexivity|]); constructor
    | repeat (constructor; [reflexivity|]); constructor ].
Defined.

(** ** Construction *)

Lemma exit_with_error_unknown {A} (msg : string) :
  @exit_with_error A msg = Exit (unknown msg).
Proof. reflexivity. Qed.

Lemma load_level_cases {RT : Runtime} (a : option string) :
  (exists v, load_level a = Return v /\ is_level v = true)
  \/ (exists s e, a = Some s /\ s <> "" /\ float_of_str s = None
                  /\ load_level a = Raise e /\ exn_cls e = ValueError).
Proof.
  destruct a as [s|]; [|left; exists PNone; split; reflexivity].
  unfold load_level, to_float. cbn [truthy].
  destruct (String.eqb_spec s "") as [->|Hs]; cbn [negb].
  - left. exists (PStr ""). split; reflexivity.
  - destruct (float_of_str s) as [f|] eqn:E.
    + left. exists (PFloat f). split; reflexivity.
    + right. eexists s, _. repeat split; [exact Hs | exact E].
Qed.

Lemma load_level_is_level {RT : Runtime} (a : option string) (v : pyval) :
  load_level a = Return v -> is_level v = true.
Proof.
  intros H. destruct (load_level_cases a) as [(w & E & Hw) | (s & e & _ & _ & _ & E & _)];
    rewrite E in H; [injection H as <-; exact Hw | discriminate].
Qed.

(** A level that counts is a float different from zero. *)
Lemma truthy_level (v : pyval) :
  is_level v = true -> truthy v = true ->
  exists f, v = PFloat f /\ PrimFloat.eqb f 0 = false.
Proof.
  destruct v as [|s|f]; cbn; intros Hl Ht; try discriminate.
  - rewrite Hl in Ht. discriminate.
  - exists f. split; [reflexivity|]. now apply negb_true_iff.
Qed.

Lemma exit_if_returns (c : bool) (msg : string) (u : unit) :
  exit_if c msg = Return u -> c = false.
Proof. destruct c; [discriminate | reflexivity]. Qed.

Lemma both_and_le_false (a b : pyval) :
  both_and_le a b = Return false ->
  truthy a = true -> truthy b = true -> Py.le a b = Return false.
Proof.
  unfold both_and_le. intros H Ha Hb. rewrite Ha, Hb in H. exact H.
Qed.

Lemma check_max_returns (mx c w : pyval) (mc mw : string) (u : unit) :
  check_max mx c w mc mw = Return u ->
  truthy mx = true ->
  Py.lt mx c = Return false /\ Py.lt mx w = Return false.
Proof.
  unfold check_max. intros H Hm. rewrite Hm in H.
  destruct (Py.lt mx c) as [[|]| |]; cbn in H; try discriminate.
  destruct (Py.lt mx w) as [[|]| |]; cbn in H; try discriminate.
  split; reflexivity.
Qed.

(** What the constructor has checked when it returns. *)
Lemma _manage_arguments_inv {RT : Runtime} (args : Namespace) (self : CheckCommand) :
  _manage_arguments args = Return self ->
  load_level (ns_download_warning args) = Return (download_warning self)
  /\ load_level (ns_download_critical args) = Return (download_critical self)
  /\ load_level (ns_upload_warning args) = Return (upload_warning self)
  /\ load_level (ns_upload_critical args) = Return (upload_critical self)
  /\ load_level (ns_download_max args) = Return (download_max self)
  /\ load_level (ns_upload_max args) = Return (upload_max self)
  /\ no_download self = ns_no_download args
  /\ no_upload self = ns_no_upload args
  /\ no_download self
       && (truthy (download_warning self) || truthy (download_critical self)
           || truthy (download_max self)) = false
  /\ no_upload self
       && (truthy (upload_warning self) || truthy (upload_critical self)
           || truthy (upload_max self)) = false
  /\ both_and_le (download_warning self) (download_critical self)
     = Return false
  /\ both_and_le (upload_warning self) (upload_critical self) = Return false
  /\ (truthy (download_max self) = true ->
      Py.lt (download_max self) (download_critical self) = Return false
      /\ Py.lt (download_max self) (download_warning self) = Return false)
  /\ (truthy (upload_max self) = true ->
      Py.lt (upload_max self) (upload_critical self) = Return false
      /\ Py.lt (upload_max self) (upload_warning self) = Return false).
Proof.
  unfold _manage_arguments.
  destruct (load_level (ns_download_warning args)) as [dw| |]; try discriminate.
  destruct (load_level (ns_download_critical args)) as [dc| |]; try discriminate.
  destruct (load_level (ns_upload_warning args)) as [uw| |]; try discriminate.
  destruct (load_level (ns_upload_critical args)) as [uc| |]; try discriminate.
  destruct (load_level (ns_download_max args)) as [dm| |]; try discriminate.
  destruct (load_level (ns_upload_max args)) as [um| |]; try discriminate.
  cbn [bind].
  destruct (ns_no_download args && _) eqn:E1; [discriminate|].
  destruct (ns_no_upload args && _) eqn:E2; [discriminate|].
  cbn [exit_if bind].
  destruct (both_and_le dw dc) as [[|]| |] eqn:E3; try discriminate.
  destruct (both_and_le uw uc) as [[|]| |] eqn:E4; try discriminate.
  cbn [exit_if bind].
  destruct (check_max dm dc dw _ _) as [[]| |] eqn:E5; try discriminate.
  destruct (check_max um uc uw _ _) as [[]| |] eqn:E6; try discriminate.
  cbn [bind]. intros H. injection H as <-. cbn.
  repeat split; try assumption; try reflexivity.
  all: match goal with
       | H : truthy ?m = true, E : check_max ?m _ _ _ _ = Return tt |- _ =>
           destruct (check_max_returns _ _ _ _ _ _ E H); assumption
       end.
Qed.

Lemma lt_float_inv (m : float) (v : pyval) (b : bool) :
  Py.lt (PFloat m) v = Return b ->
  exists c, v = PFloat c /\ b = PrimFloat.ltb m c.
Proof.
  destruct v as [|s|c]; cbn; intros H; try discriminate.
  injection H as <-. exists c. split; reflexivity.
Qed.

Lemma le_float_inv (m : float) (v : pyval) (b : bool) :
  Py.le (PFloat m) v = Return b ->
  exists c, v = PFloat c /\ b = PrimFloat.leb m c.
Proof.
  destruct v as [|s|c]; cbn; intros H; try discriminate.
  injection H as <-. exists c. split; reflexivity.
Qed.

Lemma main_init_exit {RT : Runtime} (args : Namespace) (r : exit_record) :
  __init__ args = Exit r -> main args = Exit r.
Proof. intros H. unfold main. rewrite H. reflexivity. Qed.

Lemma main_init_raise {RT : Runtime} (args : Namespace) (e : exn) :
  __init__ args = Raise e -> main args = Raise e.
Proof. intros H. unfold main. rewrite H. reflexivity. Qed.

Section Construction.
Context {RT : Runtime}.
Variable args : Namespace.

(** X3. An object that the constructor returns has been validated:
    its six levels are [None], the empty string or a float; with
    [--no-download] (with [--no-upload]) no level of that direction
    counts; a warning and a critical level that both count are floats
    with [warning <= critical] false; a maximum that counts comes with
    two floats as critical and warning level of its direction, neither
    of them above it. *)
Theorem constructed_object_is_validated (self : CheckCommand) :
  __init__ args = Return self ->
  speedtest_cmd self = "speedtest-cli"
  /\ forallb is_level
       [download_warning self; download_critical self;
        upload_warning self; upload_critical self;
        download_max self; upload_max self] = true
  /\ (no_download self = true ->
      truthy (download_warning self) = false
      /\ truthy (download_critical self) = false
      /\ truthy (download_max self) = false)
  /\ (no_upload self = true ->
      truthy (upload_warning self) = false
      /\ truthy (upload_critical self) = false
      /\ truthy (upload_max self) = false)
  /\ (truthy (download_warning self) = true ->
      truthy (download_critical self) = true ->
      exists w c, download_warning self = PFloat w
                  /\ download_critical self = PFloat c
                  /\ PrimFloat.leb w c = false)
  /\ (truthy (upload_warning self) = true ->
      truthy (upload_critical self) = true ->
      exists w c, upload_warning self = PFloat w
                  /\ upload_critical self = PFloat c
                  /\ PrimFloat.leb w c = false)
  /\ (truthy (download_max self) = true ->
      exists m c w, download_max self = PFloat m
                    /\ download_critical self = PFloat c
                    /\ download_warning self = PFloat w
                    /\ PrimFloat.ltb m c = false
                    /\ PrimFloat.ltb m w = false)
  /\ (truthy (upload_max self) = true ->
      exists m c w, upload_max self = PFloat m
                    /\ upload_critical self = PFloat c
                    /\ upload_warning self = PFloat w
                    /\ PrimFloat.ltb m c = false
                    /\ PrimFloat.ltb m w = false).
Proof.
  unfold __init__. intros H.
  destruct (_manage_arguments args) as [s0| |] eqn:E; try discriminate.
  cbn in H. injection H as <-. cbn.
  destruct (_manage_arguments_inv _ _ E)
    as (L1 & L2 & L3 & L4 & L5 & L6 & _ & _ & Nd & Nu & Bd & Bu & Md & Mu).
  apply load_level_is_level in L1, L2, L3, L4, L5, L6.
  assert (levels_le : forall a b, is_level a = true ->
            both_and_le a b = Return false ->
            truthy a = true -> truthy b = true ->
            exists w c, a = PFloat w /\ b = PFloat c
                        /\ PrimFloat.leb w c = false).
  { intros a b Ha Hb Ta Tb.
    destruct (truthy_level _ Ha Ta) as (w & -> & _).
    destruct (le_float_inv _ _ _ (both_and_le_false _ _ Hb Ta Tb))
      as (c & -> & Hc).
    exists w, c. auto. }
  assert (max_lt : forall m c w, is_level m = true ->
            (truthy m = true ->
             Py.lt m c = Return false /\ Py.lt m w = Return false) ->
            truthy m = true ->
            exists fm fc fw, m = PFloat fm /\ c = PFloat fc /\ w = PFloat fw
                             /\ PrimFloat.ltb fm fc = false
                             /\ PrimFloat.ltb fm fw = false).
  { intros m c w Hm Hlt Tm.
    destruct (truthy_level _ Hm Tm) as (fm & -> & _).
    destruct (Hlt Tm) as [Hc Hw].
    destruct (lt_float_inv _ _ _ Hc) as (fc & -> & Ec).
    destruct (lt_float_inv _ _ _ Hw) as (fw & -> & Ew).
    exists fm, fc, fw. auto. }
  split; [reflexivity|]. split.
  { rewrite L1, L2, L3, L4, L5, L6. reflexivity. }
  split.
  { intros Hn. rewrite Hn in Nd. cbn in Nd.
    apply orb_false_iff in Nd as [Nd Nd3].
    apply orb_false_iff in Nd as [Nd1 Nd2]. auto. }
  split.
  { intros Hn. rewrite Hn in Nu. cbn in Nu.
    apply orb_false_iff in Nu as [Nu Nu3].
    apply orb_false_iff in Nu as [Nu1 Nu2]. auto. }
  split; [apply levels_le; assumption|].
  split; [apply levels_le; assumption|].
  split; apply max_lt; assumption.
Qed.

(** X4. Conversely, six levels that load and pass the same conditions
    make the constructor return, with the flags and the server of the
    command line and the levels as loaded. *)
Theorem valid_levels_construct (dw dc uw uc dm um : pyval) :
  load_level (ns_download_warning args) = Return dw ->
  load_level (ns_download_critical args) = Return dc ->
  load_level (ns_upload_warning args) = Return uw ->
  load_level (ns_upload_critical args) = Return uc ->
  load_level (ns_download_max args) = Return dm ->
  load_level (ns_upload_max args) = Return um ->
  ns_no_download args && (truthy dw || truthy dc || truthy dm) = false ->
  ns_no_upload args && (truthy uw || truthy uc || truthy um) = false ->
  (truthy dw = true -> truthy dc = true -> Py.le dw dc = Return false) ->
  (truthy uw = true -> truthy uc = true -> Py.le uw uc = Return false) ->
  (truthy dm = true ->
   Py.lt dm dc = Return false /\ Py.lt dm dw = Return false) ->
  (truthy um = true ->
   Py.lt um uc = Return false /\ Py.lt um uw = Return false) ->
  __init__ args =
    Return {| debug := ns_debug args; debug2 := ns_debug2 args;
              no_download := ns_no_download args;
              no_upload := ns_no_upload args;
              always_ok := ns_always_ok args;
              server := ns_server args;
              download_warning := dw; download_critical := dc;
              upload_warning := uw; upload_critical := uc;
              download_max := dm; upload_max := um;
              speedtest_cmd := "speedtest-cli";
              download_speed := PNone; upload_speed := PNone |}.
Proof.
  intros L1 L2 L3 L4 L5 L6 Nd Nu Bd Bu Md Mu.
  unfold __init__, _manage_arguments.
  rewrite L1, L2, L3, L4, L5, L6. cbn [bind]. rewrite Nd, Nu.
  cbn [exit_if bind].
  assert (Ed : both_and_le dw dc = Return false).
  { unfold both_and_le. destruct (truthy dw); [|reflexivity].
    destruct (truthy dc); [|reflexivity]. auto. }
  assert (Eu : both_and_le uw uc = Return false).
  { unfold both_and_le. destruct (truthy uw); [|reflexivity].
    destruct (truthy uc); [|reflexivity]. auto. }
  rewrite Ed, Eu. cbn [exit_if bind].
  assert (Cm : forall m c w a b,
            (truthy m = true ->
             Py.lt m c = Return false /\ Py.lt m w = Return false) ->
            check_max m c w a b = Return tt).
  { intros m c w a b H. unfold check_max.
    destruct (truthy m); [|reflexivity].
    destruct H as [-> ->]; reflexivity. }
  rewrite (Cm _ _ _ _ _ Md), (Cm _ _ _ _ _ Mu). reflexivity.
Qed.

End Construction.

(** ** Rejected command lines *)

Lemma load_level_malformed {RT : Runtime} (s : string) :
  s <> "" -> float_of_str s = None ->
  exists e, load_level (Some s) = Raise e /\ exn_cls e = ValueError.
Proof.
  intros Hs Hf. unfold load_level, to_float. cbn [truthy].
  apply String.eqb_neq in Hs. rewrite Hs, Hf. cbn.
  eexists. split; reflexivity.
Qed.

(** X5. A level that is given, not empty and not a float makes the
    constructor raise [ValueError], whatever the rest of the command
    line is; the exception is raised outside the [try] of the main
    block, so it leaves the program uncaught instead of ending it with
    UNKNOWN. *)
Theorem malformed_level_raises {RT : Runtime} (args : Namespace) (s : string) :
  In (Some s) [ns_download_warning args; ns_download_critical args;
               ns_upload_warning args; ns_upload_critical args;
               ns_download_max args; ns_upload_max args] ->
  s <> "" ->
  float_of_str s = None ->
  exists e, __init__ args = Raise e /\ main args = Raise e
            /\ exn_cls e = ValueError.
Proof.
  intros Hin Hs Hf.
  destruct (load_level_malformed s Hs Hf) as (e0 & E0 & C0).
  assert (Hraise : exists e, _manage_arguments args = Raise e
                             /\ exn_cls e = ValueError).
  { unfold _manage_arguments.
    destruct (load_level_cases (ns_download_warning args))
      as [(v1 & E1 & _) | (? & e & _ & _ & _ & -> & ?)];
      [rewrite E1; cbn [bind] | exists e; split; [reflexivity | assumption]].
    destruct (load_level_cases (ns_download_critical args))
      as [(v2 & E2 & _) | (? & e & _ & _ & _ & -> & ?)];
      [rewrite E2; cbn [bind] | exists e; split; [reflexivity | assumption]].
    destruct (load_level_cases (ns_upload_warning args))
      as [(v3 & E3 & _) | (? & e & _ & _ & _ & -> & ?)];
      [rewrite E3; cbn [bind] | exists e; split; [reflexivity | assumption]].
    destruct (load_level_cases (ns_upload_critical args))
      as [(v4 & E4 & _) | (? & e & _ & _ & _ & -> & ?)];
      [rewrite E4; cbn [bind] | exists e; split; [reflexivity | assumption]].
    destruct (load_level_cases (ns_download_max args))
      as [(v5 & E5 & _) | (? & e & _ & _ & _ & -> & ?)];
      [rewrite E5; cbn [bind] | exists e; split; [reflexivity | assumption]].
    destruct (load_level_cases (ns_upload_max args))
      as [(v6 & E6 & _) | (? & e & _ & _ & _ & -> & ?)];
      [rewrite E6; cbn [bind] | exists e; split; [reflexivity | assumption]].
    exfalso. cbn in Hin.
    destruct Hin as [H | [H | [H | [H | [H | [H | []]]]]]];
      rewrite H in *; congruence. }
  destruct Hraise as (e & E & C). exists e.
  assert (Ei : __init__ args = Raise e)
    by (unfold __init__; rewrite E; reflexivity).
  split; [exact Ei|]. split; [apply main_init_raise, Ei | exact C].
Qed.

Lemma both_and_le_passes (a b : pyval) :
  (truthy a = true -> truthy b = true -> Py.le a b = Return false) ->
  both_and_le a b = Return false.
Proof.
  intros H. unfold both_and_le. destruct (truthy a); [|reflexivity].
  destruct (truthy b); [|reflexivity]. auto.
Qed.

Lemma both_and_le_rejects (a b : pyval) :
  truthy a = true -> truthy b = true -> Py.le a b = Return true ->
  both_and_le a b = Return true.
Proof. intros Ha Hb H. unfold both_and_le. rewrite Ha, Hb. exact H. Qed.

Lemma check_max_passes (m c w : pyval) (a b : string) :
  (truthy m = true ->
   Py.lt m c = Return false /\ Py.lt m w = Return false) ->
  check_max m c w a b = Return tt.
Proof.
  intros H. unfold check_max. destruct (truthy m); [|reflexivity].
  destruct H as [-> ->]; reflexivity.
Qed.

Section Rejected.
Context {RT : Runtime}.
Variables (args : Namespace) (dw dc uw uc dm um : pyval).
Hypothesis Ldw : load_level (ns_download_warning args) = Return dw.
Hypothesis Ldc : load_level (ns_download_critical args) = Return dc.
Hypothesis Luw : load_level (ns_upload_warning args) = Return uw.
Hypothesis Luc : load_level (ns_upload_critical args) = Return uc.
Hypothesis Ldm : load_level (ns_download_max args) = Return dm.
Hypothesis Lum : load_level (ns_upload_max args) = Return um.

Ltac loaded :=
  apply main_init_exit; unfold __init__, _manage_arguments;
  rewrite Ldw, Ldc, Luw, Luc, Ldm, Lum; cbn [bind].

(** X6. With [--no-download] and a download level that counts, the
    run ends with UNKNOWN and the message of that check, before any
    other check and without starting the child; likewise with
    [--no-upload] and an upload level, when the download check passes. *)
Theorem skip_flag_with_level_is_rejected :
  (ns_no_download args = true ->
   truthy dw || truthy dc || truthy dm = true ->
   main args =
     Exit (unknown ("You must not specify download warning, critical or max"
                    ++ " levels if --no-download specified!")))
  /\ (ns_no_download args && (truthy dw || truthy dc || truthy dm) = false ->
      ns_no_upload args = true ->
      truthy uw || truthy uc || truthy um = true ->
      main args =
        Exit (unknown ("You must not specify upload warning, critical or max"
                       ++ " levels if --no-upload specified!"))).
Proof.
  split.
  - intros Hn Ht. loaded. rewrite Hn, Ht. reflexivity.
  - intros Hd Hn Ht. loaded. rewrite Hd, Hn, Ht. reflexivity.
Qed.

(** X7. When no skip flag is in the way, a warning level and a
    critical level that both count and have [warning <= critical], equal
    levels included, end the run with UNKNOWN and the message of the
    direction; the upload pair is looked at when the download pair
    passes. *)
Theorem warning_not_above_critical_is_rejected :
  ns_no_download args && (truthy dw || truthy dc || truthy dm) = false ->
  ns_no_upload args && (truthy uw || truthy uc || truthy um) = false ->
  (truthy dw = true -> truthy dc = true -> Py.le dw dc = Return true ->
   main args =
     Exit (unknown ("Download warning level must be bigger than download"
                    ++ " critical level!")))
  /\ ((truthy dw = true -> truthy dc = true -> Py.le dw dc = Return false) ->
      truthy uw = true -> truthy uc = true -> Py.le uw uc = Return true ->
      main args =
        Exit (unknown ("Upload warning level must be bigger than upload"
                       ++ " critical level!"))).
Proof.
  intros Nd Nu. split.
  - intros Hw Hc Hle. loaded. rewrite Nd, Nu. cbn [exit_if bind].
    rewrite (both_and_le_rejects _ _ Hw Hc Hle). reflexivity.
  - intros Hd Hw Hc Hle. loaded. rewrite Nd, Nu. cbn [exit_if bind].
    rewrite (both_and_le_passes _ _ Hd). cbn [exit_if bind].
    rewrite (both_and_le_rejects _ _ Hw Hc Hle). reflexivity.
Qed.

(** X8. When the earlier checks pass, a download maximum that counts
    and is below the critical level ends the run with UNKNOWN and the
    message about the critical level; one that is not below the critical
    level but below the warning level ends it with the message about
    the warning level.  The upload maximum is checked the same way when
    the download maximum passes. *)
Theorem max_below_level_is_rejected :
  ns_no_download args && (truthy dw || truthy dc || truthy dm) = false ->
  ns_no_upload args && (truthy uw || truthy uc || truthy um) = false ->
  (truthy dw = true -> truthy dc = true -> Py.le dw dc = Return false) ->
  (truthy uw = true -> truthy uc = true -> Py.le uw uc = Return false) ->
  (truthy dm = true -> Py.lt dm dc = Return true ->
   main args =
     Exit (unknown ("Download max level cannot be lower than download"
                    ++ " critical level!")))
  /\ (truthy dm = true ->
      Py.lt dm dc = Return false -> Py.lt dm dw = Return true ->
      main args =
        Exit (unknown ("Download max level cannot be lower than download"
                       ++ " warning level!")))
  /\ ((truthy dm = true ->
       Py.lt dm dc = Return false /\ Py.lt dm dw = Return false) ->
      truthy um = true -> Py.lt um uc = Return true ->
      main args =
        Exit (unknown ("Upload max level cannot be lower than upload critical"
                       ++ " level!")))
  /\ ((truthy dm = true ->
       Py.lt dm dc = Return false /\ Py.lt dm dw = Return false) ->
      truthy um = true ->
      Py.lt um uc = Return false -> Py.lt um uw = Return true ->
      main args =
        Exit (unknown ("Upload max level cannot be lower than upload warning"
                       ++ " level!"))).
Proof.
  intros Nd Nu Bd Bu.
  assert (start : forall k : outcome CheckCommand,
            (exit_if (ns_no_download args
                      && (truthy dw || truthy dc || truthy dm))
                     ("You must not specify download warning, critical or max"
                      ++ " levels if --no-download specified!") ;;;
             exit_if (ns_no_upload args
                      && (truthy uw || truthy uc || truthy um))
                     ("You must not specify upload warning, critical or max levels"
                      ++ " if --no-upload specified!") ;;;
             d <- both_and_le dw dc ;;
             exit_if d ("Download warning level must be bigger than download"
                        ++ " critical level!") ;;;
             u <- both_and_le uw uc ;;
             exit_if u ("Upload warning level must be bigger than upload"
                        ++ " critical level!") ;;;
             k) = k).
  { intros k. rewrite Nd, Nu. cbn [exit_if bind].
    rewrite (both_and_le_passes _ _ Bd). cbn [exit_if bind].
    rewrite (both_and_le_passes _ _ Bu). reflexivity. }
  repeat split.
  - intros Hm Hc. loaded. rewrite start.
    unfold check_max. rewrite Hm, Hc. reflexivity.
  - intros Hm Hc Hw. loaded. rewrite start.
    unfold check_max. rewrite Hm, Hc, Hw. reflexivity.
  - intros Hd Hm Hc. loaded. rewrite start.
    rewrite (check_max_passes _ _ _ _ _ Hd). cbn [bind].
    unfold check_max. rewrite Hm, Hc. reflexivity.
  - intros Hd Hm Hc Hw. loaded. rewrite start.
    rewrite (check_max_passes _ _ _ _ _ Hd). cbn [bind].
    unfold check_max. rewrite Hm, Hc, Hw. reflexivity.
Qed.

End Rejected.

(** ** How a run ends *)


Lemma raise_conventional {A} (e : exn) : exits_conventionally (@Raise A e).
Proof. intros r H. discriminate. Qed.
















Lemma _parse_output_returns {RT : Runtime} (self : CheckCommand) (output : string) :
  exists d u, _parse_output self output = Return (set_speeds self d u)
              /\ is_speed d = true /\ is_speed u = true.
Proof.
  unfold _parse_output. rewrite !extract_speed_cases. cbn [bind].
  eexists _, _. split; [reflexivity|].
  split;
    match goal with
    | |- context [re_search_group ?p ?s ?o] =>
        destruct (re_search_group p s o) as [g|];
        [destruct (float_of_str g)|]; reflexivity
    end.
Qed.




Lemma _parse_results_never_returns {RT : Runtime} (self : CheckCommand) (u : unit) :
  _parse_results self = Return u -> False.
Proof.
  unfold _parse_results.
  destruct (negb (truthy (download_speed self))
            && negb (truthy (upload_speed self))); [discriminate|].
  cbn [exit_if bind].
  destruct (check_levels self) as [lv| |]; try discriminate. cbn [bind].
  destruct (_compose_output_message _ _ _ _) as [m| |]; discriminate.
Qed.

Lemma handle_never_returns {RT : Runtime} (self : CheckCommand) (u : unit) :
  handle self = Return u -> False.
Proof.
  unfold handle.
  destruct (_compose_speedtest_command self) as [output| |];
    try discriminate. cbn [bind].
  destruct (_parse_output_returns self output) as (d & v & -> & _).
  cbn [bind]. apply _parse_results_never_returns.
Qed.

(** X10. Once the object is constructed, [--debug2] decides what an
    exception of the run becomes.  Without it the program always ends by
    an exit: an exception raised while the command is run or the
    results are parsed becomes UNKNOWN with the text of the exception
    as message.  With it the run is left as it is. *)
Theorem exceptions_become_unknown
        (RT : Runtime) (args : Namespace) (self : CheckCommand) :
  __init__ args = Return self ->
  (debug2 self = true -> main args = handle self)
  /\ (debug2 self = false ->
      (forall e, handle self = Raise e ->
                 main args = Exit (unknown (exn_msg e)))
      /\ (forall r, handle self = Exit r -> main args = Exit r)
      /\ exists r, main args = Exit r).
Proof.
  intros Hi. unfold main. rewrite Hi. cbn [bind].
  split; intros ->; [reflexivity|].
  split; [intros e ->; reflexivity|].
  split; [intros r ->; reflexivity|].
  destruct (handle self) as [u|r|e] eqn:E.
  - destruct (handle_never_returns _ _ E).
  - exists r. reflexivity.
  - eexists. reflexivity.
Qed.

Lemma exceptions_become_unknown_witness :
  @main (cpython (fun _ => inl (Exn OtherError
           "[Errno 2] No such file or directory: 'speedtest-cli'")))
        (command_line None None None None None None None)
  = Exit (unknown "[Errno 2] No such file or directory: 'speedtest-cli'").
Proof.
  refine (proj1 (proj2 (exceptions_become_unknown
            (cpython (fun _ => inl (Exn OtherError
               "[Errno 2] No such file or directory: 'speedtest-cli'")))
            (command_line None None None None None None None)
            (set_speedtest_cmd
               {| debug := false; debug2 := false;
                  no_download := false; no_upload := false;
                  always_ok := false; server := None;
                  download_warning := PNone; download_critical := PNone;
                  upload_warning := PNone; upload_critical := PNone;
                  download_max := PNone; upload_max := PNone;
                  speedtest_cmd := "";
                  download_speed := PNone; upload_speed := PNone |}
               SPEEDTEST_CMD)
            _) _)
            (Exn OtherError
               "[Errno 2] No such file or directory: 'speedtest-cli'") _);
    reflexivity.
Defined.

(** X11. A run never ends by falling off the end of the program: it
    ends by an exit or by an exception, and an exception leaves the
    program only from the constructor or under [--debug2]. *)
Theorem run_ends_by_exit_or_exception (RT : Runtime) (args : Namespace) :
  (exists r, main args = Exit r)
  \/ (exists e, main args = Raise e
                /\ (__init__ args = Raise e
                    \/ exists self, __init__ args = Return self
                                    /\ debug2 self = true
                                    /\ handle self = Raise e)).
Proof.
  unfold main. destruct (__init__ args) as [self|r|e] eqn:Hi; cbn [bind].
  - destruct (debug2 self) eqn:Hd.
    + destruct (handle self) as [u|r|e] eqn:E.
      * destruct (handle_never_returns _ _ E).
      * left. exists r. reflexivity.
      * right. exists e. split; [reflexivity|]. right. exists self. auto.
    + left. destruct (handle self) as [u|r|e] eqn:E.
      * destruct (handle_never_returns _ _ E).
      * exists r. reflexivity.
      * eexists. reflexivity.
  - left. exists r. reflexivity.
  - right. exists e. split; [reflexivity|]. left. reflexivity.
Qed.

(** ** The command step *)

Lemma as_strings_int (l : list cmd_item) (x : cmd_item) (n : Z) :
  as_strings (append (append l x) (CInt n)) = None.
Proof.
  unfold append. induction l as [|[s|m] l IH]; cbn.
  - destruct x; reflexivity.
  - cbn in IH. rewrite IH. reflexivity.
  - reflexivity.
Qed.

Lemma __init___speedtest_cmd {RT : Runtime} (args : Namespace) (self : CheckCommand) :
  __init__ args = Return self -> speedtest_cmd self = "speedtest-cli".
Proof.
  unfold __init__. destruct (_manage_arguments args); try discriminate.
  cbn. intros H. injection H as <-. reflexivity.
Qed.

Lemma main_handle_raises {RT : Runtime} (args : Namespace)
      (self : CheckCommand) (e : exn) :
  __init__ args = Return self ->
  handle self = Raise e ->
  main args = if debug2 self then Raise e else Exit (unknown (exn_msg e)).
Proof.
  intros Hi He. unfold main. rewrite Hi. cbn [bind]. rewrite He.
  destruct (debug2 self); reflexivity.
Qed.

(** X12. A server id other than 0 never reaches the child: whatever
    the id is, the list handed to [subprocess.run] ends with the integer,
    the call raises [TypeError] before a child is started, and the run
    ends with UNKNOWN (with the exception itself under [--debug2]). *)
Theorem server_id_never_reaches_child
        (RT : Runtime) (args : Namespace) (self : CheckCommand) (n : Z) :
  __init__ args = Return self ->
  server self = Some n ->
  n <> 0 ->
  _compose_speedtest_command self =
    Raise (Exn TypeError "expected str, bytes or os.PathLike object, not int")
  /\ main args =
      if debug2 self
      then Raise (Exn TypeError
                    "expected str, bytes or os.PathLike object, not int")
      else Exit (unknown "expected str, bytes or os.PathLike object, not int").
Proof.
  intros Hi Hs Hn.
  assert (E : _compose_speedtest_command self =
              Raise (Exn TypeError
                       "expected str, bytes or os.PathLike object, not int")).
  { unfold _compose_speedtest_command, subprocess_run, speedtest_command.
    rewrite Hs. apply Z.eqb_neq in Hn. rewrite Hn. cbn [negb].
    rewrite as_strings_int. reflexivity. }
  split; [exact E|].
  rewrite (main_handle_raises
             args self
             (Exn TypeError
                  "expected str, bytes or os.PathLike object, not int") Hi);
    [reflexivity|].
  unfold handle. rewrite E. reflexivity.
Qed.

Lemma server_id_never_reaches_child_witness :
  @main (cpython (prints (full_output "55.23" "12.10")))
        (command_line (Some 4302) None None None None None None)
  = Exit (unknown "expected str, bytes or os.PathLike object, not int").
Proof.
  refine (proj2 (server_id_never_reaches_child
            (cpython (prints (full_output "55.23" "12.10")))
            (command_line (Some 4302) None None None None None None)
            {| debug := false; debug2 := false;
               no_download := false; no_upload := false;
               always_ok := false; server := Some 4302;
               download_warning := PNone; download_critical := PNone;
               upload_warning := PNone; upload_critical := PNone;
               download_max := PNone; upload_max := PNone;
               speedtest_cmd := SPEEDTEST_CMD;
               download_speed := PNone; upload_speed := PNone |}
            4302 _ _ _));
    [reflexivity | reflexivity | discriminate].
Defined.

(** X13. Without a server id (or with the id 0) the child is started
    with the fixed command name followed by [--no-download] and
    [--no-upload] as the flags say, and nothing else; when starting it
    or reading its output fails, the run ends with UNKNOWN and the text
    of that exception (with the exception itself under [--debug2]). *)
Theorem child_failure_is_unknown
        (RT : Runtime) (args : Namespace) (self : CheckCommand) (e : exn) :
  __init__ args = Return self ->
  server self = None \/ server self = Some 0 ->
  run_stdout
    ("speedtest-cli"
       :: (if no_download self then ["--no-download"] else [])
       ++ (if no_upload self then ["--no-upload"] else []))%list
  = inl e ->
  _compose_speedtest_command self = Raise e
  /\ main args = if debug2 self then Raise e else Exit (unknown (exn_msg e)).
Proof.
  intros Hi Hs Hr.
  assert (E : _compose_speedtest_command self = Raise e).
  { destruct (speedtest_command_without_server self Hs) as [_ ->].
    rewrite (__init___speedtest_cmd _ _ Hi), Hr. reflexivity. }
  split; [exact E|].
  apply (main_handle_raises _ _ _ Hi). unfold handle. rewrite E. reflexivity.
Qed.

Lemma child_failure_is_unknown_witness :
  @main (cpython (fun argv =>
           match argv with
           | ["speedtest-cli"; "--no-upload"] =>
               inl (Exn OtherError "[Errno 13] Permission denied: 'speedtest-cli'")
           | _ => inr ""
           end))
        {| ns_debug := false; ns_debug2 := false;
           ns_no_download := false; ns_no_upload := true;
           ns_always_ok := false; ns_server := None;
           ns_download_warning := Some "10"; ns_download_critical := None;
           ns_upload_warning := None; ns_upload_critical := None;
           ns_download_max := None; ns_upload_max := None |}
  = Exit (unknown "[Errno 13] Permission denied: 'speedtest-cli'").
Proof.
  refine (proj2 (child_failure_is_unknown
            (cpython (fun argv =>
               match argv with
               | ["speedtest-cli"; "--no-upload"] =>
                   inl (Exn OtherError
                          "[Errno 13] Permission denied: 'speedtest-cli'")
               | _ => inr ""
               end))
            _
            {| debug := false; debug2 := false;
               no_download := false; no_upload := true;
               always_ok := false; server := None;
               download_warning := PFloat 10; download_critical := PNone;
               upload_warning := PNone; upload_critical := PNone;
               download_max := PNone; upload_max := PNone;
               speedtest_cmd := SPEEDTEST_CMD;
               download_speed := PNone; upload_speed := PNone |}
            (Exn OtherError "[Errno 13] Permission denied: 'speedtest-cli'")
            _ _ _));
    [run_plugin | left; reflexivity | reflexivity].
Defined.

(** ** The checks *)

(** One test on well-formed values: it raises exactly when a level that
    counts meets an absent speed. *)
Lemma below_cases (t v : pyval) :
  is_level t = true -> is_speed v = true ->
  (truthy t = true /\ v = PNone /\ below t v = Raise none_vs_float)
  \/ ((truthy t = false \/ v <> PNone) /\ exists b, below t v = Return b).
Proof.
  intros Ht Hv. unfold below. destruct (truthy t) eqn:T.
  - destruct (truthy_level _ Ht T) as (f & -> & _).
    destruct v as [|s|x]; [left; auto | discriminate |].
    right. split; [right; discriminate | eexists; reflexivity].
  - right. split; [left; reflexivity | eexists; reflexivity].
Qed.

Section Checks.
Variable self : CheckCommand.
Hypothesis Hds : is_speed (download_speed self) = true.
Hypothesis Hus : is_speed (upload_speed self) = true.
Hypothesis Hdw : is_level (download_warning self) = true.
Hypothesis Hdc : is_level (download_critical self) = true.
Hypothesis Huw : is_level (upload_warning self) = true.
Hypothesis Huc : is_level (upload_critical self) = true.

(** X14. On the values that the constructor and the extraction leave,
    the threshold checks raise exactly when [--always-ok] is off and a
    level that counts meets the absent speed of its direction; the
    exception is then the [TypeError] of [None < float].  In every other
    case they return. *)
Theorem check_levels_raises_iff :
  ((exists e, check_levels self = Raise e) <->
   always_ok self = false
   /\ ((download_speed self = PNone
        /\ (truthy (download_warning self) = true
            \/ truthy (download_critical self) = true))
       \/ (upload_speed self = PNone
           /\ (truthy (upload_warning self) = true
               \/ truthy (upload_critical self) = true))))
  /\ (forall e, check_levels self = Raise e -> e = none_vs_float)
  /\ ((exists e, check_levels self = Raise e)
      \/ exists lv, check_levels self = Return lv).
Proof.
  unfold check_levels. destruct (always_ok self); cbn [negb].
  { split; [split; [intros [e H]; discriminate | intros [H _]; discriminate]|].
    split; [discriminate | right; eexists; reflexivity]. }
  destruct (below_cases _ _ Hdw Hds) as [(T1 & N1 & ->) | (C1 & b1 & ->)];
    cbn [bind].
  { split; [split; [auto | intros _; eexists; reflexivity]|].
    split; [intros e H; injection H as <-; reflexivity
           | left; eexists; reflexivity]. }
  destruct (below_cases _ _ Huw Hus) as [(T2 & N2 & ->) | (C2 & b2 & ->)];
    cbn [bind].
  { split; [split; [auto | intros _; eexists; reflexivity]|].
    split; [intros e H; injection H as <-; reflexivity
           | left; eexists; reflexivity]. }
  destruct (below_cases _ _ Hdc Hds) as [(T3 & N3 & ->) | (C3 & b3 & ->)];
    cbn [bind].
  { split; [split; [auto | intros _; eexists; reflexivity]|].
    split; [intros e H; injection H as <-; reflexivity
           | left; eexists; reflexivity]. }
  destruct (below_cases _ _ Huc Hus) as [(T4 & N4 & ->) | (C4 & b4 & ->)];
    cbn [bind].
  { split; [split; [auto 6 | intros _; eexists; reflexivity]|].
    split; [intros e H; injection H as <-; reflexivity
           | left; eexists; reflexivity]. }
  split; [split|].
  - intros [e H]. discriminate.
  - intros [_ [[N [T | T]] | [N [T | T]]]]; exfalso.
    + destruct C1 as [C | C]; congruence.
    + destruct C3 as [C | C]; congruence.
    + destruct C2 as [C | C]; congruence.
    + destruct C4 as [C | C]; congruence.
  - split; [discriminate | right; eexists; reflexivity].
Qed.

End Checks.

Lemma check_levels_raises_iff_witness :
  check_levels (with_download_levels PNone (PFloat f12_1))
  = Raise none_vs_float.
Proof.
  pose proof (check_levels_raises_iff
                (with_download_levels PNone (PFloat f12_1))
                eq_refl eq_refl eq_refl eq_refl eq_refl eq_refl)
    as (Hiff & Hexn & _).
  destruct (proj2 Hiff) as [e He].
  - split; [reflexivity|]. left. split; [reflexivity|]. left. run_plugin.
  - rewrite He. f_equal. apply Hexn, He.
Defined.

(** X15. When the checks return with [--always-ok] off, a speed below
    the warning level that counts and not below a critical level that
    counts gives its direction the level WARNING and the run at least
    WARNING; a speed below neither gives its direction the level OK; and
    the run is OK when both directions are. *)
Theorem warning_and_ok_levels (self : CheckCommand) (lv : Levels) :
  check_levels self = Return lv ->
  always_ok self = false ->
  (truthy (download_warning self) = true ->
   Py.lt (download_speed self) (download_warning self) = Return true ->
   truthy (download_critical self) = false
   \/ Py.lt (download_speed self) (download_critical self) = Return false ->
   download_level lv = ICINGA_WARNING /\ 1 <= exit_level lv)
  /\ (truthy (download_warning self) = false
      \/ Py.lt (download_speed self) (download_warning self) = Return false ->
      truthy (download_critical self) = false
      \/ Py.lt (download_speed self) (download_critical self) = Return false ->
      download_level lv = ICINGA_OK)
  /\ (truthy (upload_warning self) = true ->
      Py.lt (upload_speed self) (upload_warning self) = Return true ->
      truthy (upload_critical self) = false
      \/ Py.lt (upload_speed self) (upload_critical self) = Return false ->
      upload_level lv = ICINGA_WARNING /\ 1 <= exit_level lv)
  /\ (truthy (upload_warning self) = false
      \/ Py.lt (upload_speed self) (upload_warning self) = Return false ->
      truthy (upload_critical self) = false
      \/ Py.lt (upload_speed self) (upload_critical self) = Return false ->
      upload_level lv = ICINGA_OK)
  /\ (download_level lv = ICINGA_OK -> upload_level lv = ICINGA_OK ->
      exit_level lv = ICINGA_OK).
Proof.
  intros H Ha.
  destruct (check_levels_inv _ _ H)
    as [(Ha' & _) | (_ & dw & uw & dc & uc & Edw & Euw & Edc & Euc & -> & -> & ->)];
    [congruence|].
  assert (fires : forall t v b, below t v = Return b ->
            truthy t = true -> Py.lt v t = Return true -> b = true).
  { unfold below. intros t v b E T L. rewrite T, L in E. congruence. }
  assert (quiet : forall t v b, below t v = Return b ->
            truthy t = false \/ Py.lt v t = Return false -> b = false).
  { unfold below. intros t v b E [T | L].
    - rewrite T in E. congruence.
    - destruct (truthy t); [rewrite L in E|]; congruence. }
  split; [|split; [|split; [|split]]].
  - intros T L Q. rewrite (fires _ _ _ Edw T L), (quiet _ _ _ Edc Q).
    split; [reflexivity|]. destruct uc; cbn; lia.
  - intros Q1 Q2. rewrite (quiet _ _ _ Edw Q1), (quiet _ _ _ Edc Q2).
    reflexivity.
  - intros T L Q. rewrite (fires _ _ _ Euw T L), (quiet _ _ _ Euc Q).
    split; [reflexivity|]. destruct dc, dw; cbn; lia.
  - intros Q1 Q2. rewrite (quiet _ _ _ Euw Q1), (quiet _ _ _ Euc Q2).
    reflexivity.
  - destruct dw, uw, dc, uc; cbn; intros; congruence.
Qed.

Lemma warning_and_ok_levels_witness :
  exists lv : Levels,
    check_levels (with_download_levels (PFloat 5) (PFloat f12_1)) = Return lv
    /\ download_level lv = ICINGA_WARNING
    /\ upload_level lv = ICINGA_OK
    /\ 1 <= exit_level lv.
Proof.
  exists {| exit_level := 1; download_level := 1; upload_level := 0 |}.
  assert (H : check_levels (with_download_levels (PFloat 5) (PFloat f12_1))
              = Return {| exit_level := 1; download_level := 1;
                          upload_level := 0 |}) by run_plugin.
  split; [exact H|].
  destruct (warning_and_ok_levels _ _ H eq_refl) as (W & _ & _ & O & _).
  destruct W as [W1 W2]; [run_plugin | run_plugin | right; run_plugin|].
  split; [exact W1|]. split; [|exact W2].
  apply O; left; reflexivity.
Defined.

(** ** The line of a completed run *)

Lemma append_assoc (a b c : string) : (a ++ b) ++ c = a ++ b ++ c.
Proof. induction a as [|x a IH]; cbn; [reflexivity | now rewrite IH]. Qed.

Lemma _compose_level_string_nonempty_or_ok (l : Z) (t : string) :
  _compose_level_string l false " " "[" "]" = Return t ->
  (l = 0 /\ t = "")
  \/ (exists label, dict_get ICINGA_LABELS l = Some label
                    /\ l <> 0 /\ t = " [" ++ label ++ "]").
Proof.
  unfold _compose_level_string. cbn [negb andb].
  destruct (Z.eqb_spec l 0) as [->|H0].
  - intros H. injection H as <-. left. auto.
  - destruct (Z.eqb_spec l 1) as [->|H1];
      [intros H; injection H as <-; right; exists "WARNING"; auto|].
    destruct (Z.eqb_spec l 2) as [->|H2];
      [intros H; injection H as <-; right; exists "CRITICAL"; auto|].
    destruct (Z.eqb_spec l 3) as [->|H3];
      [intros H; injection H as <-; right; exists "UNKNOWN"; auto|].
    discriminate.
Qed.

Lemma _compose_output_message_nonempty {RT : Runtime}
      (d u : pyval) (dl ul : Z) (m : string) :
  _compose_output_message d u dl ul = Return m -> String.eqb m "" = false.
Proof.
  unfold _compose_output_message. destruct (truthy d).
  - destruct (_compose_level_string dl _ _ _ _); try discriminate.
    destruct (_compose_level_string ul _ _ _ _); try discriminate.
    cbn. intros H. injection H as <-. reflexivity.
  - cbn. intros H. injection H as <-. reflexivity.
Qed.

Lemma icinga_exit_line {A} (level : Z) (label d : string)
      (perfdata : list string) :
  dict_get ICINGA_LABELS level = Some label ->
  String.eqb d "" = false ->
  perfdata <> [] ->
  @icinga_exit A level (Some d) perfdata =
    Exit (ExitRecord level (if level =? 0 then stdout else stderr)
            (label ++ " - " ++ d ++ " |" ++ String.concat " " perfdata)).
Proof.
  intros Hl Hd Hp. unfold icinga_exit. rewrite Hl, Hd.
  destruct perfdata as [|x xs]; [contradiction|].
  cbn [List.length Nat.eqb negb]. unfold ICINGA_OK.
  rewrite !append_assoc. reflexivity.
Qed.

Lemma _parse_results_line {RT : Runtime} (self : CheckCommand) (lv : Levels) :
  check_levels self = Return lv ->
  truthy (download_speed self) || truthy (upload_speed self) = true ->
  exists label summary,
    dict_get ICINGA_LABELS (exit_level lv) = Some label
    /\ _compose_output_message (download_speed self) (upload_speed self)
                               (download_level lv) (upload_level lv)
       = Return summary
    /\ _parse_results self =
         Exit (ExitRecord (exit_level lv)
                 (if exit_level lv =? 0 then stdout else stderr)
                 (label ++ " - " ++ summary ++ " |"
                  ++ String.concat " "
                       (_compose_perfdata
                          (download_speed self) (download_warning self)
                          (download_critical self) (download_max self)
                          (upload_speed self) (upload_warning self)
                          (upload_critical self) (upload_max self)))).
Proof.
  intros H Hs.
  destruct (check_levels_range _ _ H) as [Hd Hu].
  destruct (_compose_output_message_total
              (download_speed self) (upload_speed self)
              (download_level lv) (upload_level lv)) as [m Em]; [lia|lia|].
  assert (Hl : exists label, dict_get ICINGA_LABELS (exit_level lv) = Some label).
  { destruct (check_levels_inv _ _ H)
      as [(_ & -> & _) | (_ & dw & uw & dc & uc & _ & _ & _ & _ & _ & _ & ->)];
      [|destruct dw, uw, dc, uc]; cbn; eexists; reflexivity. }
  destruct Hl as [label Hl]. exists label, m.
  split; [exact Hl|]. split; [exact Em|].
  unfold _parse_results.
  apply orb_true_iff in Hs.
  assert (Hb : negb (truthy (download_speed self))
               && negb (truthy (upload_speed self)) = false)
    by (destruct Hs as [-> | ->]; cbn; auto using andb_false_r).
  rewrite Hb. cbn [exit_if bind]. rewrite H. cbn [bind].
  rewrite Em. cbn [bind].
  apply icinga_exit_line;
    [exact Hl | exact (_compose_output_message_nonempty _ _ _ _ _ Em)
    | discriminate].
Qed.

(** X16. A run whose checks return and that has a speed leaves with
    the exit level as status, on the standard output for OK and on the
    error stream otherwise, and with the line made of the label of the
    level, " - ", the summary, " |" and the two performance entries
    separated by a space. *)
Theorem completed_run_line (RT : Runtime) (self : CheckCommand) (lv : Levels) :
  check_levels self = Return lv ->
  truthy (download_speed self) || truthy (upload_speed self) = true ->
  exists label summary d_entry u_entry,
    dict_get ICINGA_LABELS (exit_level lv) = Some label
    /\ _compose_output_message (download_speed self) (upload_speed self)
                               (download_level lv) (upload_level lv)
       = Return summary
    /\ _compose_perfdata
         (download_speed self) (download_warning self)
         (download_critical self) (download_max self)
         (upload_speed self) (upload_warning self)
         (upload_critical self) (upload_max self) = [d_entry; u_entry]
    /\ _parse_results self =
         Exit (ExitRecord (exit_level lv)
                 (if exit_level lv =? 0 then stdout else stderr)
                 (label ++ " - " ++ summary ++ " |"
                  ++ d_entry ++ " " ++ u_entry)).
Proof.
  intros H Hs.
  destruct (_parse_results_line self lv H Hs) as (label & m & Hl & Em & E).
  exists label, m. eexists _, _.
  split; [exact Hl|]. split; [exact Em|].
  split; [apply _compose_perfdata_shape|].
  rewrite E. reflexivity.
Qed.

Lemma completed_run_line_witness :
  @_parse_results (cpython (prints ""))
     (with_download_levels (PFloat 5) (PFloat f12_1))
  = Exit (ExitRecord 1 stderr
            ("WARNING - Download speed: 5.0 Mbit/sec [WARNING],"
             ++ " Upload speed: 12.1 Mbit/sec"
             ++ " |'download_speed'=5.0Mbit/sec;10.0;2.0;NaN;NaN"
             ++ " 'upload_speed'=12.1Mbit/sec;NaN;NaN;NaN;NaN")).
Proof.
  destruct (completed_run_line
              (cpython (prints ""))
              (with_download_levels (PFloat 5) (PFloat f12_1))
              {| exit_level := 1; download_level := 1; upload_level := 0 |})
    as (label & m & d & u & Hl & Em & Ep & E); [run_plugin | run_plugin |].
  rewrite E. vm_compute in Hl, Em, Ep.
  injection Hl as <-. injection Em as <-. injection Ep as <- <-.
  reflexivity.
Defined.

(** X17. With [--always-ok], or when none of the four thresholds
    counts, a run that has a speed ends with status 0 on the standard
    output and a line that begins with "OK - ", whatever the speeds are;
    an absent speed does not make the checks raise then. *)
Theorem disabled_checks_give_ok (RT : Runtime) (self : CheckCommand) :
  always_ok self = true
  \/ (truthy (download_warning self) = false
      /\ truthy (upload_warning self) = false
      /\ truthy (download_critical self) = false
      /\ truthy (upload_critical self) = false) ->
  truthy (download_speed self) || truthy (upload_speed self) = true ->
  check_levels self =
    Return {| exit_level := 0; download_level := 0; upload_level := 0 |}
  /\ exists rest,
      _parse_results self = Exit (ExitRecord 0 stdout ("OK - " ++ rest)).
Proof.
  intros Hoff Hs.
  assert (H : check_levels self =
              Return {| exit_level := 0; download_level := 0;
                        upload_level := 0 |}).
  { unfold check_levels. destruct Hoff as [-> | (T1 & T2 & T3 & T4)];
      [reflexivity|].
    unfold below. rewrite T1, T2, T3, T4.
    destruct (always_ok self); reflexivity. }
  split; [exact H|].
  destruct (_parse_results_line self _ H Hs) as (label & m & Hl & _ & E).
  cbn in Hl. injection Hl as <-. rewrite E. cbn.
  eexists. reflexivity.
Qed.

Lemma disabled_checks_give_ok_witness :
  exists rest,
    @_parse_results (cpython (prints ""))
       {| debug := false; debug2 := false;
          no_download := false; no_upload := false;
          always_ok := true; server := None;
          download_warning := PFloat 10; download_critical := PFloat 2;
          upload_warning := PFloat 5; upload_critical := PFloat 1;
          download_max := PNone; upload_max := PNone;
          speedtest_cmd := SPEEDTEST_CMD;
          download_speed := PFloat 0.5; upload_speed := PNone |}
    = Exit (ExitRecord 0 stdout ("OK - " ++ rest)).
Proof.
  refine (proj2 (disabled_checks_give_ok (cpython (prints "")) _ _ _));
    [left; reflexivity | run_plugin].
Defined.

(** ** The summary and its tags *)

Lemma label_cases (l : Z) :
  match dict_get ICINGA_LABELS l with
  | Some label =>
      (l = 0 /\ label = "OK") \/ (l = 1 /\ label = "WARNING")
      \/ (l = 2 /\ label = "CRITICAL") \/ (l = 3 /\ label = "UNKNOWN")
  | None => l <> 0 /\ l <> 1 /\ l <> 2 /\ l <> 3
  end.
Proof.
  cbn. destruct (Z.eqb_spec l 0); [auto|].
  destruct (Z.eqb_spec l 1); [auto|].
  destruct (Z.eqb_spec l 2); [auto|].
  destruct (Z.eqb_spec l 3); auto 6.
Qed.

Lemma _compose_level_string_label (l : Z) (label : string) :
  dict_get ICINGA_LABELS l = Some label ->
  _compose_level_string l false " " "[" "]" =
    Return (if l =? 0 then "" else " [" ++ label ++ "]").
Proof.
  intros H. pose proof (label_cases l) as C. rewrite H in C.
  destruct C as [[-> ->] | [[-> ->] | [[-> ->] | [-> ->]]]]; reflexivity.
Qed.

Lemma _compose_level_string_unbound (l : Z) :
  dict_get ICINGA_LABELS l = None ->
  exists e, _compose_level_string l false " " "[" "]" = Raise e
            /\ exn_cls e = UnboundLocalError.
Proof.
  intros H. pose proof (label_cases l) as C. rewrite H in C.
  destruct C as (H0 & H1 & H2 & H3). unfold _compose_level_string.
  apply Z.eqb_neq in H0, H1, H2, H3. rewrite H0, H1, H2, H3.
  cbn. eexists. split; reflexivity.
Qed.

(** X18. The summary names both speeds when the download speed
    counts, each followed by the exit label of its level in brackets
    unless the level is OK, and is "No download speed, No upload speed"
    otherwise, whatever the upload speed and the levels are.  A level
    without label (outside 0..3) next to a download speed that counts
    raises [UnboundLocalError]. *)
Theorem summary_uses_exit_labels
        (RT : Runtime) (d u : pyval) (dl ul : Z) :
  (forall ld lu,
      dict_get ICINGA_LABELS dl = Some ld ->
      dict_get ICINGA_LABELS ul = Some lu ->
      _compose_output_message d u dl ul =
        Return (if truthy d
                then ("Download speed: " ++ Py.str d ++ " Mbit/sec"
                      ++ (if dl =? 0 then "" else " [" ++ ld ++ "]"))
                     ++ ", "
                     ++ ("Upload speed: " ++ Py.str u ++ " Mbit/sec"
                         ++ (if ul =? 0 then "" else " [" ++ lu ++ "]"))
                else "No download speed, No upload speed"))
  /\ (truthy d = true ->
      dict_get ICINGA_LABELS dl = None \/ dict_get ICINGA_LABELS ul = None ->
      exists e, _compose_output_message d u dl ul = Raise e
                /\ exn_cls e = UnboundLocalError).
Proof.
  split.
  - intros ld lu Hd Hu. unfold _compose_output_message.
    rewrite (_compose_level_string_label _ _ Hd),
            (_compose_level_string_label _ _ Hu).
    destruct (truthy d); reflexivity.
  - intros T [H | H]; unfold _compose_output_message; rewrite T.
    + destruct (_compose_level_string_unbound _ H) as (e & -> & C).
      exists e. split; [reflexivity | exact C].
    + destruct (_compose_level_string_unbound _ H) as (e & E & C).
      destruct (_compose_level_string dl false " " "[" "]") as [t|r|e'] eqn:Ed.
      * cbn [bind]. rewrite E. exists e. split; [reflexivity | exact C].
      * exfalso. revert Ed. unfold _compose_level_string. cbn [negb andb].
        destruct (dl =? 0); [discriminate|]. destruct (dl =? 1); [discriminate|].
        destruct (dl =? 2); [discriminate|]. destruct (dl =? 3); discriminate.
      * destruct (dict_get ICINGA_LABELS dl) as [ld|] eqn:Hd.
        -- rewrite (_compose_level_string_label _ _ Hd) in Ed. discriminate.
        -- destruct (_compose_level_string_unbound _ Hd) as (e2 & E2 & C2).
           rewrite E2 in Ed. injection Ed as <-.
           exists e2. split; [reflexivity | exact C2].
Qed.

(** ** A text without result lines *)

Lemma _parse_output_no_lines {RT : Runtime} (self : CheckCommand)
      (ls : list string) :
  Forall (fun l => no_lf l = true) ls ->
  Forall (fun l => match_line "Download: " " Mbit/s" l = None) ls ->
  Forall (fun l => match_line "Upload: " " Mbit/s" l = None) ls ->
  _parse_output self (unlines ls) = Return (set_speeds self PNone PNone).
Proof.
  intros Hlf Hd Hu. unfold _parse_output. rewrite !extract_speed_cases.
  rewrite (re_search_group_none _ _ _ Hlf Hd),
          (re_search_group_none _ _ _ Hlf Hu).
  reflexivity.
Qed.

(** X19. When the child prints a text none of whose lines has the
    download form or the upload form, the run ends with UNKNOWN and "No
    download and upload speed recognised", whatever the thresholds,
    [--always-ok] and [--debug2] are. *)
Theorem output_without_result_lines_is_unknown
        (RT : Runtime) (args : Namespace) (self : CheckCommand)
        (ls : list string) :
  __init__ args = Return self ->
  server self = None \/ server self = Some 0 ->
  run_stdout
    ("speedtest-cli"
       :: (if no_download self then ["--no-download"] else [])
       ++ (if no_upload self then ["--no-upload"] else []))%list
  = inr (unlines ls) ->
  Forall (fun l => no_lf l = true) ls ->
  Forall (fun l => match_line "Download: " " Mbit/s" l = None) ls ->
  Forall (fun l => match_line "Upload: " " Mbit/s" l = None) ls ->
  main args = Exit no_speed_recognised.
Proof.
  intros Hi Hs Hr Hlf Hd Hu.
  assert (Ec : _compose_speedtest_command self = Return (unlines ls)).
  { destruct (speedtest_command_without_server self Hs) as [_ ->].
    rewrite (__init___speedtest_cmd _ _ Hi), Hr. reflexivity. }
  rewrite (main_after_extraction _ _ _ _ Hi Ec
             (_parse_output_no_lines self ls Hlf Hd Hu)).
  rewrite _parse_results_no_speed by reflexivity.
  destruct (debug2 self); reflexivity.
Qed.

Lemma output_without_result_lines_is_unknown_witness :
  @main (cpython (prints no_result_output))
        {| ns_debug := false; ns_debug2 := true;
           ns_no_download := false; ns_no_upload := false;
           ns_always_ok := true; ns_server := None;
           ns_download_warning := Some "10"; ns_download_critical := Some "2";
           ns_upload_warning := None; ns_upload_critical := None;
           ns_download_max := None; ns_upload_max := None |}
  = Exit no_speed_recognised.
Proof.
  refine (output_without_result_lines_is_unknown
            (cpython (prints no_result_output)) _
            {| debug := false; debug2 := true;
               no_download := false; no_upload := false;
               always_ok := true; server := None;
               download_warning := PFloat 10; download_critical := PFloat 2;
               upload_warning := PNone; upload_critical := PNone;
               download_max := PNone; upload_max := PNone;
               speedtest_cmd := SPEEDTEST_CMD;
               download_speed := PNone; upload_speed := PNone |}
            [ "Retrieving speedtest.net configuration...";
              "Cannot retrieve speedtest configuration"; "" ]
            _ _ _ _ _ _);
    [ run_plugin | left; reflexivity | reflexivity
    | repeat (constructor; [reflexivity|]); constructor
    | repeat (constructor; [reflexivity|]); constructor
    | repeat (constructor; [reflexivity|]); constructor ].
Defined.

(** * Instances of the further properties *)

Lemma constructed_object_is_validated_witness :
  exists m c w,
    download_max with_download_max = PFloat m
    /\ download_critical with_download_max = PFloat c
    /\ download_warning with_download_max = PFloat w
    /\ PrimFloat.ltb m c = false /\ PrimFloat.ltb m w = false.
Proof.
  pose proof (@constructed_object_is_validated
                (cpython (prints ""))
                (command_line None (Some "10") (Some "2") None None
                              (Some "100") None)
                with_download_max)
    as H.
  destruct H as (_ & _ & _ & _ & _ & _ & Hm & _); [run_plugin|].
  apply Hm. run_plugin.
Defined.

Lemma valid_levels_construct_witness :
  @__init__ (cpython (prints ""))
            (command_line None (Some "10") (Some "2") None None
                          (Some "100") None)
  = Return with_download_max.
Proof.
  refine (@valid_levels_construct
            (cpython (prints ""))
            (command_line None (Some "10") (Some "2") None None
                          (Some "100") None)
            (PFloat 10) (PFloat 2) PNone PNone (PFloat 100) PNone
            _ _ _ _ _ _ _ _ _ _ _ _);
    try run_plugin; intros; try split; try discriminate; run_plugin.
Defined.

Lemma malformed_level_raises_witness :
  exists e,
    @main (cpython (prints ""))
          (command_line None None (Some "2,5") None None None None)
    = Raise e
    /\ exn_cls e = ValueError.
Proof.
  destruct (@malformed_level_raises
              (cpython (prints ""))
              (command_line None None (Some "2,5") None None None None)
              "2,5")
    as (e & _ & Hm & Hc);
    [right; left; reflexivity | discriminate | run_plugin |].
  exists e. split; assumption.
Defined.

Lemma skip_flag_with_level_is_rejected_witness :
  @main (cpython (prints ""))
        {| ns_debug := false; ns_debug2 := false;
           ns_no_download := true; ns_no_upload := false;
           ns_always_ok := false; ns_server := None;
           ns_download_warning := Some "10"; ns_download_critical := None;
           ns_upload_warning := None; ns_upload_critical := None;
           ns_download_max := None; ns_upload_max := None |}
  = Exit (unknown ("You must not specify download warning, critical or max"
                   ++ " levels if --no-download specified!")).
Proof.
  refine (proj1 (@skip_flag_with_level_is_rejected
                   (cpython (prints "")) _
                   (PFloat 10) PNone PNone PNone PNone PNone
                   _ _ _ _ _ _) _ _);
    run_plugin.
Defined.

Lemma warning_not_above_critical_is_rejected_witness :
  @main (cpython (prints ""))
        (command_line None (Some "2") (Some "2.0") None None None None)
  = Exit (unknown ("Download warning level must be bigger than download"
                   ++ " critical level!")).
Proof.
  refine (proj1 (@warning_not_above_critical_is_rejected
                   (cpython (prints ""))
                   (command_line None (Some "2") (Some "2.0")
                                 None None None None)
                   (PFloat 2) (PFloat 2) PNone PNone PNone PNone
                   _ _ _ _ _ _ _ _) _ _ _);
    run_plugin.
Defined.

Lemma max_below_level_is_rejected_witness :
  @main (cpython (prints ""))
        (command_line None (Some "10") (Some "2") None None (Some "5") None)
  = Exit (unknown ("Download max level cannot be lower than download"
                   ++ " warning level!")).
Proof.
  refine (proj1 (proj2 (@max_below_level_is_rejected
                   (cpython (prints ""))
                   (command_line None (Some "10") (Some "2")
                                 None None (Some "5") None)
                   (PFloat 10) (PFloat 2) PNone PNone (PFloat 5) PNone
                   _ _ _ _ _ _ _ _ _ _)) _ _ _);
    try run_plugin; intros; try discriminate; run_plugin.
Defined.
